(** * The etcd server fuzz harness (projects/etcd/etcdserver_fuzzer.go)

    A shallow embedding of the two fuzz targets [Fuzzapply] and
    [FuzzapplierV3backendApply], of the two panic handlers [catchPanics]
    and [catchPanics2], of the acceptance predicate [shouldPass] and of the
    package initialiser [init].

    Go features that matter here and how they are embedded:
    - a panic is an outcome of a computation ([Panicked v]) next to a normal
      return ([Returned a]);
    - [defer] is written as a combinator around the rest of the body; a
      deferred handler that calls [recover()] receives [Some v] while the
      function is panicking with [v] and [None] otherwise;
    - a function with an unnamed result that recovers from a panic returns
      the zero value of its result type;
    - the libraries the harness calls (go-fuzz-headers, etcd) are not part of
      the repository: they are the fields of the class [Collaborators]. *)

From Stdlib Require Import ZArith Lia Bool Ascii String.
From Stdlib Require Import Strings.Byte.
From stdpp Require Import base list.

Local Open Scope Z_scope.
Local Open Scope string_scope.

(** ** Strings *)

(** [strings.HasPrefix] and [strings.Contains] on Go strings (byte strings). *)
Definition HasPrefix (s p : string) : bool := String.prefix p s.

Fixpoint Contains (s substr : string) : bool :=
  HasPrefix s substr ||
  match s with
  | EmptyString => false
  | String _ s' => Contains s' substr
  end.

(** ** Panic values *)

(** The dynamic type of a value passed to [panic], as far as the type
    switches of the handlers tell values apart. A [runtime.Error] is also an
    [error]; [PError] stands for the errors that are not runtime errors. *)
Inductive PanicValue : Type :=
| PString (s : string)
| PRuntimeError (msg : string)
| PError (msg : string)
| POther (repr : string).

(** The local variable [err] of [catchPanics] after its type switch. *)
Definition catchPanics_err (r : PanicValue) : string :=
  match r with
  | PString s => s
  | PRuntimeError msg => msg
  | _ => ""
  end.

(** [catchPanics], as a function of what [recover()] returned; the result is
    the value of a new panic, if the handler raises one. *)
Definition catchPanics (r : option PanicValue) : option PanicValue :=
  match r with
  | None => None
  | Some r =>
      let err := catchPanics_err r in
      if negb (Contains err "should never fail")
      then Some (PString err)
      else None
  end.

(** The local variable [err] of [catchPanics2] after its type switch. *)
Definition catchPanics2_err (r : PanicValue) : string :=
  match r with
  | PString s => s
  | PRuntimeError msg => msg
  | PError msg => msg
  | POther _ => ""
  end.

Definition catchPanics2 (r : option PanicValue) : option PanicValue :=
  match r with
  | None => None
  | Some r =>
      let err := catchPanics2_err r in
      if Contains err "is not in dotted-tri format" then None
      else if Contains err "strconv.ParseInt: parsing" then None
      else if Contains err "is not a valid semver identifier" then None
      else if Contains err "invalid downgrade; server version is lower than determined cluster version" then None
      else Some (PString err)
  end.

(** The allow-lists of the two handlers, as the lists of their patterns. *)
Definition allowlist1 : list string := ["should never fail"].

Definition allowlist2 : list string :=
  ["is not in dotted-tri format";
   "strconv.ParseInt: parsing";
   "is not a valid semver identifier";
   "invalid downgrade; server version is lower than determined cluster version"].

Definition allowed (patterns : list string) (err : string) : bool :=
  existsb (Contains err) patterns.

(** The two handlers under one name, for the statements about both. *)
Inductive Variant : Type := Variant1 | Variant2.

Definition handler (v : Variant) : option PanicValue -> option PanicValue :=
  match v with Variant1 => catchPanics | Variant2 => catchPanics2 end.

Definition derived_message (v : Variant) : PanicValue -> string :=
  match v with Variant1 => catchPanics_err | Variant2 => catchPanics2_err end.

Definition allowlist (v : Variant) : list string :=
  match v with Variant1 => allowlist1 | Variant2 => allowlist2 end.

(** ** Data the harness decodes *)

(** A Go [(value, error)] pair. *)
Inductive result (A : Type) : Type :=
| Ok (a : A)
| Err (e : string).
Arguments Ok {A} a.
Arguments Err {A} e.

(** [raftpb.Entry]. The harness reads [Data] only. *)
Record Entry : Type := {
  Term : Z;
  Index : Z;
  EntryType : Z;
  Data : list byte
}.

(** The message types of [etcdserverpb] behind the three pointer fields that
    [shouldPass] inspects, and all the remaining fields of
    [pb.InternalRaftRequest] taken together. *)
Class PbTypes : Type := {
  ClusterVersionSetRequest : Type;
  ClusterMemberAttrSetRequest : Type;
  DowngradeInfoSetRequest : Type;
  RequestRest : Type
}.

(** [pb.InternalRaftRequest]: a struct of pointer fields, [None] for [nil].
    The fields are independent of each other. *)
Record InternalRaftRequest `{PbTypes} : Type := {
  ClusterVersionSet : option ClusterVersionSetRequest;
  ClusterMemberAttrSet : option ClusterMemberAttrSetRequest;
  DowngradeInfoSet : option DowngradeInfoSetRequest;
  rest : RequestRest
}.

(** ** The server context *)

(** A storage backend, as far as the harness acts on it: open or closed,
    and whether the meta bucket was created. Backends live in a store and
    are named by their position in it. *)
Record Backend : Type := {
  be_open : bool;
  be_meta : bool
}.

(** [EtcdServer] as the harness builds it: the identity, the members of the
    cluster, the backend the consistent index is bound to, and whether
    [applyV3Internal] was set. *)
Record EtcdServer : Type := {
  srv_id : Z;
  cluster : list Z;
  consistIndex : nat;
  applyV3Internal : bool
}.

(** ** The collaborators *)

(** What the harness calls and does not define: the go-fuzz-headers consumer
    and the two apply operations of etcd. A decoding operation returns its
    [(value, error)] pair and the consumer after the call. An apply operation
    sees the state of etcd and of the backends and returns the new state of
    etcd and the value it panicked with, if it did. *)
Class Collaborators `{PbTypes} : Type := {
  ConsumeFuzzer : Type;
  NewConsumer : list byte -> ConsumeFuzzer;
  GetInt : ConsumeFuzzer -> result Z * ConsumeFuzzer;
  GetBool : ConsumeFuzzer -> result bool * ConsumeFuzzer;
  GenerateStruct_Entry : ConsumeFuzzer -> result Entry * ConsumeFuzzer;
  GenerateStruct_InternalRaftRequest :
    ConsumeFuzzer -> result InternalRaftRequest * ConsumeFuzzer;
  ConfState : Type;
  ConfState_zero : ConfState;
  Ext : Type;
  EtcdServer_apply :
    Ext -> list Backend -> EtcdServer -> list Entry -> ConfState ->
    Ext * option PanicValue;
  applierV3_Apply :
    Ext -> list Backend -> EtcdServer -> InternalRaftRequest -> bool ->
    Ext * option PanicValue
}.

(** ** Computations *)

Inductive Outcome (A : Type) : Type :=
| Returned (a : A)
| Panicked (v : PanicValue).
Arguments Returned {A} a.
Arguments Panicked {A} v.

Section Harness.
Context `{Collaborators}.

(** The calls the harness makes to its collaborators, in order. The trace is
    ghost state: no function reads it. A decoding event carries the result
    and the consumer after the call. *)
Inductive Event : Type :=
| EvGetInt (r : result Z) (f' : ConsumeFuzzer)
| EvGetBool (r : result bool) (f' : ConsumeFuzzer)
| EvGenerateEntry (r : result Entry) (f' : ConsumeFuzzer)
| EvGenerateRequest (r : result InternalRaftRequest) (f' : ConsumeFuzzer)
| EvNewBackend (be : nat)
| EvClose (be : nat)
| EvApply (srv : EtcdServer) (ents : list Entry) (cs : ConfState)
| EvApplierApply (srv : EtcdServer) (rr : InternalRaftRequest) (shouldApplyV3 : bool).

(** The state of the process: the state of etcd, the backends created so
    far, the package variable [ab] (the applier, given by the server it was
    made from; [None] for the nil interface) and the trace. *)
Record World : Type := {
  ext : Ext;
  backends : list Backend;
  ab : option EtcdServer;
  trace : list Event
}.

Definition M (A : Type) : Type := World -> Outcome A * World.

Definition ret {A} (a : A) : M A := fun w => (Returned a, w).

Definition bind {A B} (m : M A) (k : A -> M B) : M B :=
  fun w =>
    match m w with
    | (Returned a, w') => k a w'
    | (Panicked v, w') => (Panicked v, w')
    end.

(** The world with the events [l] added to the trace. *)
Definition add_trace (w : World) (l : list Event) : World :=
  {| ext := ext w; backends := backends w; ab := ab w;
     trace := trace w ++ l |}.

Definition log (e : Event) : M unit :=
  fun w => (Returned tt, add_trace w [e]).

End Harness.

Notation "x <- m ;; k" := (bind m (fun x => k))
  (at level 100, m at next level, right associativity).
Notation "m ;;; k" := (bind m (fun _ => k))
  (at level 100, right associativity).

Section Targets.
Context `{Collaborators}.

(** [defer h()] where [h] calls [recover()], around the body of a function
    whose unnamed result has the zero value [zero]: when the body returns,
    [recover()] yields nil; when it panics with [v], the handler receives
    [v], and the function returns [zero] unless the handler panics. *)
Definition defer_recover {A} (zero : A)
    (h : option PanicValue -> option PanicValue) (body : M A) : M A :=
  fun w =>
    match body w with
    | (Returned a, w') =>
        match h None with
        | None => (Returned a, w')
        | Some v' => (Panicked v', w')
        end
    | (Panicked v, w') =>
        match h (Some v) with
        | None => (Returned zero, w')
        | Some v' => (Panicked v', w')
        end
    end.

(** [defer d] where [d] does not recover: [d] runs when the body returns or
    panics, and the outcome of the body stands. *)
Definition defer_call {A} (d : M unit) (body : M A) : M A :=
  fun w =>
    match body w with
    | (o, w') =>
        match d w' with
        | (Returned _, w'') => (o, w'')
        | (Panicked v, w'') => (Panicked v, w'')
        end
    end.

(** *** Calls to the collaborators *)

Definition getInt (f : ConsumeFuzzer) : M (result Z * ConsumeFuzzer) :=
  let r := GetInt f in log (EvGetInt (fst r) (snd r));;; ret r.

Definition getBool (f : ConsumeFuzzer) : M (result bool * ConsumeFuzzer) :=
  let r := GetBool f in log (EvGetBool (fst r) (snd r));;; ret r.

Definition generateEntry (f : ConsumeFuzzer) : M (result Entry * ConsumeFuzzer) :=
  let r := GenerateStruct_Entry f in log (EvGenerateEntry (fst r) (snd r));;; ret r.

Definition generateRequest (f : ConsumeFuzzer)
    : M (result InternalRaftRequest * ConsumeFuzzer) :=
  let r := GenerateStruct_InternalRaftRequest f in
  log (EvGenerateRequest (fst r) (snd r));;; ret r.

(** [betesting.NewDefaultTmpBackend]: a new open backend. *)
Definition NewDefaultTmpBackend : M nat :=
  fun w =>
    let be := length (backends w) in
    (Returned be,
     {| ext := ext w;
        backends := backends w ++ [{| be_open := true; be_meta := false |}];
        ab := ab w;
        trace := trace w ++ [EvNewBackend be] |}).

(** [betesting.Close]. The harness closes only backends it has created, so
    [be] is always in range. *)
Definition Close (be : nat) : M unit :=
  fun w =>
    (Returned tt,
     {| ext := ext w;
        backends := alter (fun b => {| be_open := false; be_meta := be_meta b |}) be (backends w);
        ab := ab w;
        trace := trace w ++ [EvClose be] |}).

(** [schema.CreateMetaBucket(be.BatchTx())]. *)
Definition CreateMetaBucket (be : nat) : M unit :=
  fun w =>
    (Returned tt,
     {| ext := ext w;
        backends := alter (fun b => {| be_open := be_open b; be_meta := true |}) be (backends w);
        ab := ab w;
        trace := trace w |}).

(** [srv.apply(ents, cs)]; the three results are discarded by the caller. *)
Definition srv_apply (srv : EtcdServer) (ents : list Entry) (cs : ConfState) : M unit :=
  fun w =>
    let r := EtcdServer_apply (ext w) (backends w) srv ents cs in
    let w' := {| ext := fst r; backends := backends w; ab := ab w;
                 trace := trace w ++ [EvApply srv ents cs] |} in
    match snd r with
    | None => (Returned tt, w')
    | Some v => (Panicked v, w')
    end.

(** [ab.Apply(rr, shouldApplyV3)]. Calling a method of the nil interface is
    a runtime error. *)
Definition ab_Apply (rr : InternalRaftRequest) (shouldApplyV3 : bool) : M unit :=
  fun w =>
    match ab w with
    | None =>
        (Panicked (PRuntimeError
                     "runtime error: invalid memory address or nil pointer dereference"), w)
    | Some srv =>
        let r := applierV3_Apply (ext w) (backends w) srv rr shouldApplyV3 in
        let w' := {| ext := fst r; backends := backends w; ab := ab w;
                     trace := trace w ++ [EvApplierApply srv rr shouldApplyV3] |} in
        match snd r with
        | None => (Returned tt, w')
        | Some v => (Panicked v, w')
        end
    end.

Definition set_ab (srv : EtcdServer) : M unit :=
  fun w =>
    (Returned tt,
     {| ext := ext w; backends := backends w; ab := Some srv; trace := trace w |}).

(** *** The package initialiser *)

(** [init]: the cluster with the single member 1, a new backend whose
    [Close] is deferred, the meta bucket, the consistent index on the
    backend, the server, and the applier stored in [ab]. *)
Definition init : M unit :=
  be <- NewDefaultTmpBackend;;
  defer_call (Close be)
    (CreateMetaBucket be;;;
     let srv := {| srv_id := 1; cluster := [1]; consistIndex := be;
                   applyV3Internal := true |} in
     set_ab srv).

(** *** Fuzzapply *)

(** The loop [for i := 0; i < number%20; i++] of [Fuzzapply], with [n] the
    number of iterations left; [None] when the body returns 0. *)
Fixpoint Fuzzapply_loop (n : nat) (f : ConsumeFuzzer) (ents : list Entry)
    : M (option (list Entry)) :=
  match n with
  | O => ret (Some ents)
  | S n' =>
      r <- generateEntry f;;
      match r with
      | (Err _, _) => ret None
      | (Ok ent, f') =>
          if (length (Data ent) =? 0)%nat then ret None
          else Fuzzapply_loop n' f' (ents ++ [ent])
      end
  end.

(** [number%20] is Go's truncated remainder ([Z.rem]); the loop does not
    run when it is zero or negative. *)
Definition Fuzzapply (data : list byte) : M Z :=
  defer_recover 0 catchPanics
    (let f := NewConsumer data in
     r <- getInt f;;
     match r with
     | (Err _, _) => ret 0
     | (Ok number, f) =>
         r <- Fuzzapply_loop (Z.to_nat (Z.rem number 20)) f [];;
         match r with
         | None => ret 0
         | Some ents =>
             if (length ents =? 0)%nat then ret 0
             else
               be <- NewDefaultTmpBackend;;
               defer_call (Close be)
                 (CreateMetaBucket be;;;
                  let srv := {| srv_id := 1; cluster := [1]; consistIndex := be;
                                applyV3Internal := false |} in
                  srv_apply srv ents ConfState_zero;;;
                  ret 1)
         end
     end).

(** *** FuzzapplierV3backendApply *)

(** [shouldPass]: the result and the consumer after the call. *)
Definition shouldPass (r : InternalRaftRequest) (f : ConsumeFuzzer)
    : M (bool * ConsumeFuzzer) :=
  match ClusterVersionSet r, ClusterMemberAttrSet r, DowngradeInfoSet r with
  | Some _, _, _ =>
      b <- getBool f;;
      match b with
      | (Ok true, f') => ret (true, f')
      | (_, f') => ret (false, f')
      end
  | None, Some _, _ =>
      b <- getBool f;;
      match b with
      | (Ok true, f') => ret (true, f')
      | (_, f') => ret (false, f')
      end
  | None, None, Some _ =>
      b <- getBool f;;
      match b with
      | (Ok true, f') => ret (true, f')
      | (_, f') => ret (false, f')
      end
  | None, None, None => ret (true, f)
  end.

Definition FuzzapplierV3backendApply (data : list byte) : M Z :=
  defer_recover 0 catchPanics2
    (let f := NewConsumer data in
     r <- generateRequest f;;
     match r with
     | (Err _, _) => ret 0
     | (Ok rr, f) =>
         p <- shouldPass rr f;;
         if negb (fst p) then ret 0
         else
           ab_Apply rr true;;;
           ret 1
     end).

End Targets.

(** ** Observations on runs *)

Section Observations.
Context `{Collaborators}.

(** The events a computation adds to the trace when run in [w]. *)
Definition events_of {A} (m : M A) (w : World) : list Event :=
  drop (length (trace w)) (trace (snd (m w))).

Definition is_decode (e : Event) : bool :=
  match e with
  | EvGetInt _ _ | EvGetBool _ _ | EvGenerateEntry _ _ | EvGenerateRequest _ _ => true
  | _ => false
  end.

Definition is_generate_entry (e : Event) : bool :=
  match e with EvGenerateEntry _ _ => true | _ => false end.

Definition is_get_bool (e : Event) : bool :=
  match e with EvGetBool _ _ => true | _ => false end.

Definition is_apply (e : Event) : bool :=
  match e with EvApply _ _ _ | EvApplierApply _ _ _ => true | _ => false end.

(** A generation of an entry that makes [Fuzzapply] return 0: it failed, or
    the entry has no data. *)
Definition is_rejected_entry (e : Event) : bool :=
  match e with
  | EvGenerateEntry (Err _) _ => true
  | EvGenerateEntry (Ok ent) _ => (length (Data ent) =? 0)%nat
  | _ => false
  end.

Definition count (p : Event -> bool) (l : list Event) : nat :=
  length (List.filter p l).

(** One of the three fields that [shouldPass] tests is set. *)
Definition gated (r : InternalRaftRequest) : bool :=
  match ClusterVersionSet r, ClusterMemberAttrSet r, DowngradeInfoSet r with
  | None, None, None => false
  | _, _, _ => true
  end.

(** The request with, of the three fields that [shouldPass] tests, only the
    first one that is set. *)
Definition first_set_field (r : InternalRaftRequest) : InternalRaftRequest :=
  match ClusterVersionSet r, ClusterMemberAttrSet r with
  | Some _, _ =>
      {| ClusterVersionSet := ClusterVersionSet r; ClusterMemberAttrSet := None;
         DowngradeInfoSet := None; rest := rest r |}
  | None, Some _ =>
      {| ClusterVersionSet := None; ClusterMemberAttrSet := ClusterMemberAttrSet r;
         DowngradeInfoSet := None; rest := rest r |}
  | None, None => r
  end.

(** The process: [init] runs once, from a world with no backend and a nil
    [ab]; then the fuzzing engine calls the targets. A call that panics ends
    the process, so the calls after it do not run. *)
Definition World0 (x : Ext) : World :=
  {| ext := x; backends := []; ab := None; trace := [] |}.

Inductive Call : Type :=
| CallFuzzapply (data : list byte)
| CallFuzzapplierV3backendApply (data : list byte).

Definition run_call (c : Call) : M Z :=
  match c with
  | CallFuzzapply data => Fuzzapply data
  | CallFuzzapplierV3backendApply data => FuzzapplierV3backendApply data
  end.

Fixpoint run_calls (cs : list Call) (w : World) : World :=
  match cs with
  | [] => w
  | c :: cs' =>
      match run_call c w with
      | (Returned _, w') => run_calls cs' w'
      | (Panicked _, w') => w'
      end
  end.

(** The backend behind the applier [ab] is open. *)
Definition ab_backend_open (w : World) : bool :=
  match ab w with
  | None => false
  | Some srv =>
      match backends w !! consistIndex srv with
      | Some be => be_open be
      | None => false
      end
  end.

(** [m] returns [a] and only adds the events [l], whatever the world. *)
Definition appends {A} (m : M A) (a : A) (l : list Event) : Prop :=
  forall w, m w = (Returned a, add_trace w l).

(** The result of [shouldPass] on a gated request, from what [GetBool]
    returned. *)
Definition passes (b : result bool * ConsumeFuzzer) : bool * ConsumeFuzzer :=
  match b with
  | (Ok true, f') => (true, f')
  | (_, f') => (false, f')
  end.

(** The events of the decoding phase of [FuzzapplierV3backendApply] on a
    request [rr] decoded with the consumer [f1] left. *)
Definition request_decoding (rr : InternalRaftRequest) (f1 : ConsumeFuzzer) : list Event :=
  EvGenerateRequest (Ok rr) f1 ::
  (if gated rr then [EvGetBool (fst (GetBool f1)) (snd (GetBool f1))] else []).

(** Whether [shouldPass] accepts [rr] with the consumer [f1]. *)
Definition accepted (rr : InternalRaftRequest) (f1 : ConsumeFuzzer) : bool :=
  if gated rr then fst (passes (GetBool f1)) else true.

(** What the loop of [Fuzzapply] returns and the events it adds, for [n]
    iterations from the consumer [f] and the entries [ents]. *)
Fixpoint entries_decoding (n : nat) (f : ConsumeFuzzer) (ents : list Entry)
    : option (list Entry) * list Event :=
  match n with
  | O => (Some ents, [])
  | S n' =>
      let r := GenerateStruct_Entry f in
      let e := EvGenerateEntry (fst r) (snd r) in
      match r with
      | (Err _, _) => (None, [e])
      | (Ok ent, f') =>
          if (length (Data ent) =? 0)%nat then (None, [e])
          else
            let d := entries_decoding n' f' (ents ++ [ent]) in
            (fst d, e :: snd d)
      end
  end.

(** The server that [Fuzzapply] builds on the backend [be]. *)
Definition fresh_server (be : nat) : EtcdServer :=
  {| srv_id := 1; cluster := [1]; consistIndex := be; applyV3Internal := false |}.

(** The events of the execution phase of [Fuzzapply]: the backend [be] is
    created, [ents] are applied, the backend is closed. *)
Definition entries_execution (be : nat) (ents : list Entry) : list Event :=
  [EvNewBackend be; EvApply (fresh_server be) ents ConfState_zero; EvClose be].

(** The decoding events of a call of [Fuzzapply], from the buffer alone. *)
Definition Fuzzapply_decoding (data : list byte) : list Event :=
  let r := GetInt (NewConsumer data) in
  EvGetInt (fst r) (snd r) ::
  match fst r with
  | Ok number => snd (entries_decoding (Z.to_nat (Z.rem number 20)) (snd r) [])
  | Err _ => []
  end.

(** The decoding events of a call of [FuzzapplierV3backendApply], from the
    buffer alone. *)
Definition FuzzapplierV3backendApply_decoding (data : list byte) : list Event :=
  let r := GenerateStruct_InternalRaftRequest (NewConsumer data) in
  match fst r with
  | Ok rr => request_decoding rr (snd r)
  | Err e => [EvGenerateRequest (Err e) (snd r)]
  end.

(** The server that [init] builds; its backend is the first one created. *)
Definition init_server : EtcdServer :=
  {| srv_id := 1; cluster := [1]; consistIndex := 0; applyV3Internal := true |}.

(** The applier after [init]: set, on a backend that is closed. *)
Definition ab_on_closed_backend (w : World) : Prop :=
  ab w = Some init_server /\
  backends w !! 0%nat = Some {| be_open := false; be_meta := true |}.

End Observations.

(** ** Further observations *)

Section Entries.
Context `{Collaborators}.

(** The entries that the generations of a trace produced, in order. *)
Fixpoint generated_entries (l : list Event) : list Entry :=
  match l with
  | [] => []
  | EvGenerateEntry (Ok ent) _ :: l' => ent :: generated_entries l'
  | _ :: l' => generated_entries l'
  end.

(** A backend after [CreateMetaBucket] and [Close]. *)
Definition closed_backend : Backend := {| be_open := false; be_meta := true |}.

(** The message of the runtime error of a call through a nil interface. *)
Definition nil_dereference : string :=
  "runtime error: invalid memory address or nil pointer dereference".

(** What a handler makes of a panic with the value [v] in a function whose
    result has the zero value 0. *)
Definition recovered_outcome (h : option PanicValue -> option PanicValue)
    (v : PanicValue) : Outcome Z :=
  match h (Some v) with
  | None => Returned 0
  | Some v' => Panicked v'
  end.

(** The entries that [Fuzzapply] passes to the apply on the buffer [data];
    [None] when it returns 0 before. *)
Definition Fuzzapply_entries (data : list byte) : option (list Entry) :=
  match GetInt (NewConsumer data) with
  | (Ok number, f1) =>
      match fst (entries_decoding (Z.to_nat (Z.rem number 20)) f1 []) with
      | Some ents => if (length ents =? 0)%nat then None else Some ents
      | None => None
      end
  | (Err _, _) => None
  end.

(** On which server an apply event runs: a request apply on the server of
    [init], with [shouldApplyV3] true; an entries apply on a server whose
    backend is not the one of [init], with the zero [ConfState]. *)
Definition apply_target_ok (e : Event) : Prop :=
  match e with
  | EvApplierApply srv _ b => srv = init_server /\ b = true
  | EvApply srv _ cs =>
      consistIndex srv <> consistIndex init_server /\ cs = ConfState_zero
  | _ => True
  end.

(** What holds of the process after [init] and between the calls. *)
Definition process_invariant (w : World) : Prop :=
  ab w = Some init_server /\
  (exists n, backends w = replicate (S n) closed_backend) /\
  Forall apply_target_ok (trace w).

End Entries.

(** ** A concrete environment

    A small instance of the collaborators, to run the targets on explicit
    buffers. It stands in for the libraries and fixes one byte convention
    of its own: an integer is one byte read as a signed 8-bit number, a
    boolean is the low bit of one byte, an entry is three bytes for term,
    index and type, one byte for the length of the data and the data, and a
    request is one byte whose three low bits say which of the three tested
    fields are set. The entries apply never panics; the request apply panics
    with the downgrade message on a request whose [DowngradeInfoSet] is
    set. *)
Module Ref.

#[export] Instance pb : PbTypes := {|
  ClusterVersionSetRequest := unit;
  ClusterMemberAttrSetRequest := unit;
  DowngradeInfoSetRequest := unit;
  RequestRest := N
|}.

Definition byteZ (b : byte) : Z := Z.of_N (Byte.to_N b).

Definition decodeInt (f : list byte) : result Z * list byte :=
  match f with
  | [] => (Err "not enough bytes", f)
  | b :: f' => (Ok (if (byteZ b <? 128)%Z then byteZ b else byteZ b - 256), f')
  end.

Definition decodeBool (f : list byte) : result bool * list byte :=
  match f with
  | [] => (Err "not enough bytes", f)
  | b :: f' => (Ok (Z.odd (byteZ b)), f')
  end.

Definition decodeEntry (f : list byte) : result Entry * list byte :=
  match f with
  | t :: i :: ty :: n :: f' =>
      let len := N.to_nat (Byte.to_N n) in
      if (len <=? length f')%nat
      then (Ok {| Term := byteZ t; Index := byteZ i; EntryType := byteZ ty;
                  Data := take len f' |}, drop len f')
      else (Err "not enough bytes", f')
  | _ => (Err "not enough bytes", f)
  end.

Definition decodeRequest (f : list byte) : result InternalRaftRequest * list byte :=
  match f with
  | [] => (Err "not enough bytes", f)
  | b :: f' =>
      let n := Byte.to_N b in
      (Ok {| ClusterVersionSet := if N.testbit n 0 then Some tt else None;
             ClusterMemberAttrSet := if N.testbit n 1 then Some tt else None;
             DowngradeInfoSet := if N.testbit n 2 then Some tt else None;
             rest := N.shiftr n 3 |}, f')
  end.

Definition applyEntries (x : nat) (bs : list Backend) (srv : EtcdServer)
    (ents : list Entry) (cs : unit) : nat * option PanicValue :=
  ((x + length ents)%nat, None).

Definition applyRequest (x : nat) (bs : list Backend) (srv : EtcdServer)
    (rr : InternalRaftRequest) (shouldApplyV3 : bool) : nat * option PanicValue :=
  match DowngradeInfoSet rr with
  | Some _ =>
      (x, Some (PString "invalid downgrade; server version is lower than determined cluster version"))
  | None => (S x, None)
  end.

#[export] Instance env : Collaborators := {|
  ConsumeFuzzer := list byte;
  NewConsumer := fun data => data;
  GetInt := decodeInt;
  GetBool := decodeBool;
  GenerateStruct_Entry := decodeEntry;
  GenerateStruct_InternalRaftRequest := decodeRequest;
  ConfState := unit;
  ConfState_zero := tt;
  Ext := nat;
  EtcdServer_apply := applyEntries;
  applierV3_Apply := applyRequest
|}.

(** The world after [init]. *)
Definition started : World := snd (init (World0 (O : Ext))).

(** A request with [DowngradeInfoSet] alone. *)
Definition downgrade_request : InternalRaftRequest :=
  {| ClusterVersionSet := None; ClusterMemberAttrSet := None;
     DowngradeInfoSet := Some tt; rest := 0%N |}.

(** A request with [ClusterVersionSet] alone. *)
Definition version_request : InternalRaftRequest :=
  {| ClusterVersionSet := Some tt; ClusterMemberAttrSet := None;
     DowngradeInfoSet := None; rest := 0%N |}.

Definition downgrade_message : string :=
  "invalid downgrade; server version is lower than determined cluster version".

(** An entry with one byte of data, and its four bytes of header. *)
Definition entry_A : Entry :=
  {| Term := 0; Index := 0; EntryType := 0; Data := [x41] |}.

End Ref.

(** ** An environment whose applies panic

    The decoders of [Ref], with applies that panic on chosen inputs: the
    entries apply panics with a message of the allow-list of [catchPanics]
    when the term of the first entry is 1 and with an error that is not a
    runtime error when it is 2; the request apply panics with a runtime
    error on a request whose [ClusterVersionSet] is set. *)
Module Faulty.

Definition applyEntries (x : nat) (bs : list Backend) (srv : EtcdServer)
    (ents : list Entry) (cs : unit) : nat * option PanicValue :=
  match ents with
  | ent :: _ =>
      if (Term ent =? 1)%Z then (x, Some (PString "unmarshal should never fail"))
      else if (Term ent =? 2)%Z then (x, Some (PError "boom"))
      else ((x + length ents)%nat, None)
  | [] => (x, None)
  end.

Definition applyRequest (x : nat) (bs : list Backend) (srv : EtcdServer)
    (rr : @InternalRaftRequest Ref.pb) (shouldApplyV3 : bool)
    : nat * option PanicValue :=
  match ClusterVersionSet rr with
  | Some _ => (x, Some (PRuntimeError "index out of range"))
  | None => (S x, None)
  end.

Definition env : @Collaborators Ref.pb := {|
  ConsumeFuzzer := list byte;
  NewConsumer := fun data => data;
  GetInt := Ref.decodeInt;
  GetBool := Ref.decodeBool;
  GenerateStruct_Entry := Ref.decodeEntry;
  GenerateStruct_InternalRaftRequest := Ref.decodeRequest;
  ConfState := unit;
  ConfState_zero := tt;
  Ext := nat;
  EtcdServer_apply := applyEntries;
  applierV3_Apply := applyRequest
|}.

(** The world after [init]. *)
Definition started : @World Ref.pb env := snd (@init Ref.pb env (@World0 Ref.pb env O)).

(** An entry with term 1 and one byte of data. *)
Definition entry_1 : Entry :=
  {| Term := 1; Index := 0; EntryType := 0; Data := [x41] |}.

(** An entry with term 2 and one byte of data. *)
Definition entry_2 : Entry :=
  {| Term := 2; Index := 0; EntryType := 0; Data := [x41] |}.

End Faulty.

(** * Properties *)

Local Open Scope list_scope.

#[local] Arguments catchPanics : simpl never.
#[local] Arguments catchPanics2 : simpl never.

(** ** Strings *)

Lemma HasPrefix_spec (p s : string) :
  HasPrefix s p = true <-> exists b, s = (p ++ b)%string.
Proof.
  unfold HasPrefix. revert s.
  induction p as [|c p IH]; intros s; simpl.
  - split; [intros _; exists s; reflexivity | intros _; destruct s; reflexivity].
  - destruct s as [|d s]; simpl.
    + split; [discriminate | intros [b Hb]; discriminate].
    + destruct (ascii_dec c d) as [->|Hne].
      * rewrite IH. split; intros [b Hb]; exists b; congruence.
      * split; [discriminate | intros [b Hb]; congruence].
Qed.

(** [Contains s substr] holds exactly when [substr] occurs in [s]. *)
Lemma Contains_spec (s substr : string) :
  Contains s substr = true <-> exists a b, s = (a ++ substr ++ b)%string.
Proof.
  induction s as [|c s IH]; cbn [Contains].
  - rewrite orb_false_r, HasPrefix_spec. split.
    + intros [b Hb]. exists "", b. exact Hb.
    + intros [a [b Hab]]. destruct a; [exists b; exact Hab|discriminate].
  - rewrite orb_true_iff, HasPrefix_spec, IH. split.
    + intros [[b Hb]|[a [b Hab]]].
      * exists "", b. exact Hb.
      * exists (String c a), b. simpl. congruence.
    + intros [a [b Hab]]. destruct a as [|d a]; simpl in Hab.
      * left. exists b. exact Hab.
      * right. exists a, b. congruence.
Qed.

Lemma Contains_self (s : string) : Contains s s = true.
Proof.
  apply Contains_spec. exists "", "". simpl.
  induction s as [|c s IH]; simpl; congruence.
Qed.

(** ** The panic handlers *)

(** Each handler suppresses exactly the messages of its allow-list and
    raises the derived message, as a string, on the others. *)
Lemma handler_allowed (v : Variant) (r : PanicValue) :
  handler v (Some r) =
  if allowed (allowlist v) (derived_message v r) then None
  else Some (PString (derived_message v r)).
Proof.
  destruct v; simpl; unfold allowed, catchPanics, catchPanics2; simpl.
  - destruct (Contains _ _); reflexivity.
  - repeat (destruct (Contains _ _); simpl; try reflexivity).
Qed.

Lemma handler_nil (v : Variant) : handler v None = None.
Proof. destruct v; reflexivity. Qed.

(** C3, as the code has it: on a failure whose derived message is on no
    allow-list, either handler panics with the derived message as a string.
    This is the recovered value itself when that was a string; for a
    runtime error under either handler, and for any other error under
    [catchPanics2], it is the text of the error. *)
Theorem reraise_derived_message (v : Variant) (r : PanicValue)
    (Hno : allowed (allowlist v) (derived_message v r) = false) :
  handler v (Some r) = Some (PString (derived_message v r)) /\
  (forall s, r = PString s -> handler v (Some r) = Some r) /\
  (forall msg, r = PRuntimeError msg -> handler v (Some r) = Some (PString msg)) /\
  (forall msg, r = PError msg -> v = Variant2 ->
               handler v (Some r) = Some (PString msg)).
Proof.
  rewrite handler_allowed, Hno.
  split; [reflexivity|].
  split; [|split].
  - intros s ->. destruct v; reflexivity.
  - intros msg ->. destruct v; reflexivity.
  - intros msg -> ->. reflexivity.
Qed.

Lemma reraise_derived_message_witness :
  allowed (allowlist Variant2)
    (derived_message Variant2 (PRuntimeError "index out of range")) = false /\
  handler Variant2 (Some (PRuntimeError "index out of range")) =
  Some (PString "index out of range").
Proof.
  split; [reflexivity|].
  exact (proj1 (reraise_derived_message Variant2
                  (PRuntimeError "index out of range") eq_refl)).
Defined.

(** C3 as stated fails: a runtime error that is on no allow-list is not
    raised again as it was; the new panic carries a string. *)
Lemma reraise_original_counterexample :
  allowed allowlist2 (catchPanics2_err (PRuntimeError "index out of range")) = false /\
  catchPanics2 (Some (PRuntimeError "index out of range")) <>
  Some (PRuntimeError "index out of range").
Proof. split; [reflexivity | discriminate]. Qed.

(** C4: [catchPanics] has no case for an error that is not a runtime error.
    For such a value its message is empty, where [catchPanics2] derives the
    text of the error; the panic that [catchPanics] then raises has lost
    the text. *)
Theorem catchPanics_error_message_lost :
  catchPanics_err (PError "boom") = "" /\
  catchPanics2_err (PError "boom") = "boom" /\
  catchPanics (Some (PError "boom")) = Some (PString "") /\
  catchPanics2 (Some (PError "boom")) = Some (PString "boom").
Proof. repeat split. Qed.

(** ** Runs *)

Section Runs.
Context `{Collaborators}.

Lemma add_trace_nil (w : World) : add_trace w [] = w.
Proof. destruct w. unfold add_trace. simpl. rewrite app_nil_r. reflexivity. Qed.

Lemma add_trace_app (w : World) (l1 l2 : list Event) :
  add_trace (add_trace w l1) l2 = add_trace w (l1 ++ l2).
Proof. unfold add_trace. simpl. rewrite app_assoc. reflexivity. Qed.

Lemma events_of_add_trace {A} (m : M A) (w : World) (o : Outcome A)
    (x : Ext) (bs : list Backend) (a : option EtcdServer) (l : list Event) :
  m w = (o, {| ext := x; backends := bs; ab := a; trace := trace w ++ l |}) ->
  events_of m w = l.
Proof.
  intros Hm. unfold events_of. rewrite Hm. simpl.
  rewrite drop_app_length. reflexivity.
Qed.

Lemma appends_events {A} (m : M A) (a : A) (l : list Event) (w : World) :
  appends m a l -> events_of m w = l.
Proof. intros Hm. eapply events_of_add_trace. rewrite Hm. reflexivity. Qed.

Lemma appends_ret {A} (a : A) : appends (ret a) a [].
Proof. intros w. unfold ret. rewrite add_trace_nil. reflexivity. Qed.

Lemma appends_bind {A B} (m : M A) (k : A -> M B) a l b l' :
  appends m a l -> appends (k a) b l' -> appends (bind m k) b (l ++ l').
Proof.
  intros Hm Hk w. unfold bind. rewrite Hm, Hk, add_trace_app. reflexivity.
Qed.

Lemma appends_log (e : Event) : appends (log e) tt [e].
Proof. intros w. reflexivity. Qed.

Lemma appends_getInt f :
  appends (getInt f) (GetInt f) [EvGetInt (fst (GetInt f)) (snd (GetInt f))].
Proof. intros w. reflexivity. Qed.

Lemma appends_getBool f :
  appends (getBool f) (GetBool f) [EvGetBool (fst (GetBool f)) (snd (GetBool f))].
Proof. intros w. reflexivity. Qed.

Lemma appends_generateEntry f :
  appends (generateEntry f) (GenerateStruct_Entry f)
    [EvGenerateEntry (fst (GenerateStruct_Entry f)) (snd (GenerateStruct_Entry f))].
Proof. intros w. reflexivity. Qed.

Lemma appends_generateRequest f :
  appends (generateRequest f) (GenerateStruct_InternalRaftRequest f)
    [EvGenerateRequest (fst (GenerateStruct_InternalRaftRequest f))
                       (snd (GenerateStruct_InternalRaftRequest f))].
Proof. intros w. reflexivity. Qed.

(** [shouldPass] on its two kinds of request. *)
Lemma shouldPass_gated r f :
  gated r = true ->
  appends (shouldPass r f) (passes (GetBool f))
    [EvGetBool (fst (GetBool f)) (snd (GetBool f))].
Proof.
  intros Hg w. unfold gated in Hg. unfold shouldPass, bind, getBool, log, ret, passes.
  destruct (ClusterVersionSet r), (ClusterMemberAttrSet r), (DowngradeInfoSet r);
    try discriminate; simpl;
    destruct (GetBool f) as [[[|]|e] f']; reflexivity.
Qed.

Lemma shouldPass_not_gated r f :
  gated r = false -> appends (shouldPass r f) (true, f) [].
Proof.
  intros Hg w. unfold gated in Hg. unfold shouldPass.
  destruct (ClusterVersionSet r), (ClusterMemberAttrSet r), (DowngradeInfoSet r);
    try discriminate.
  apply appends_ret.
Qed.

End Runs.

(** ** The request-apply target *)

Section RequestApply.
Context `{Collaborators}.

(** [shouldPass] in one equation. *)
Lemma shouldPass_run r f w :
  shouldPass r f w =
  if gated r
  then (Returned (passes (GetBool f)),
        add_trace w [EvGetBool (fst (GetBool f)) (snd (GetBool f))])
  else (Returned (true, f), w).
Proof.
  destruct (gated r) eqn:Hg.
  - apply shouldPass_gated, Hg.
  - rewrite (shouldPass_not_gated r f Hg w), add_trace_nil. reflexivity.
Qed.

(** A run of [FuzzapplierV3backendApply] on a buffer whose request decodes. *)
Lemma FuzzapplierV3backendApply_run data w srv rr f1 :
  ab w = Some srv ->
  GenerateStruct_InternalRaftRequest (NewConsumer data) = (Ok rr, f1) ->
  FuzzapplierV3backendApply data w =
  if accepted rr f1 then
    let r := applierV3_Apply (ext w) (backends w) srv rr true in
    (match snd r with
     | None => Returned 1
     | Some v =>
         match catchPanics2 (Some v) with
         | None => Returned 0
         | Some v' => Panicked v'
         end
     end,
     {| ext := fst r; backends := backends w; ab := ab w;
        trace := trace w ++ (request_decoding rr f1 ++ [EvApplierApply srv rr true]) |})
  else (Returned 0, add_trace w (request_decoding rr f1)).
Proof.
  intros Hab Hgen.
  unfold FuzzapplierV3backendApply, defer_recover, bind at 1.
  rewrite (appends_generateRequest (NewConsumer data) w), Hgen. simpl fst; simpl snd.
  unfold bind at 1. rewrite shouldPass_run.
  unfold accepted, request_decoding.
  destruct (gated rr).
  - destruct (passes (GetBool f1)) as [[|] f2]; simpl.
    + unfold bind, ab_Apply, ret. simpl. rewrite Hab.
      destruct (applierV3_Apply _ _ _ _ _) as [x [v|]]; simpl;
        rewrite <- ?app_assoc; simpl; [|reflexivity].
      destruct (catchPanics2 (Some v)); reflexivity.
    + unfold ret. rewrite add_trace_app. reflexivity.
  - simpl. unfold bind, ab_Apply, ret. simpl. rewrite Hab.
    destruct (applierV3_Apply _ _ _ _ _) as [x [v|]]; simpl;
      rewrite <- ?app_assoc; simpl; [|reflexivity].
    destruct (catchPanics2 (Some v)); reflexivity.
Qed.

(** C1, as the code has it: when the apply invocation panics with a value
    whose message is on the allow-list of [catchPanics2], the panic is
    suppressed and the target returns 0, the zero value of its result:
    [return 1] was not reached. The apply was invoked once. *)
Theorem suppressed_panic_returns_zero data w srv rr f1 x' v
    (Hab : ab w = Some srv)
    (Hgen : GenerateStruct_InternalRaftRequest (NewConsumer data) = (Ok rr, f1))
    (Hacc : accepted rr f1 = true)
    (Happly : applierV3_Apply (ext w) (backends w) srv rr true = (x', Some v))
    (Hallow : allowed allowlist2 (catchPanics2_err v) = true) :
  FuzzapplierV3backendApply data w =
  (Returned 0,
   {| ext := x'; backends := backends w; ab := ab w;
      trace := trace w ++ (request_decoding rr f1 ++ [EvApplierApply srv rr true]) |}).
Proof.
  rewrite (FuzzapplierV3backendApply_run data w srv rr f1 Hab Hgen), Hacc.
  cbv zeta. rewrite Happly. simpl.
  pose proof (handler_allowed Variant2 v) as Hh.
  unfold handler, derived_message, allowlist in Hh.
  rewrite Hh, Hallow. reflexivity.
Qed.

(** C7: on a decoded request with one of the three tested fields set, one
    boolean is decoded and the apply is invoked exactly when it decoded to
    true; on any other request no boolean is decoded and the apply is
    invoked. Where the apply is invoked, the state of etcd after the call is
    the one [applierV3_Apply] returned and the outcome follows what it
    panicked with; where it is not, the call returns 0 and the state of etcd
    is as before. *)
Theorem apply_iff_auxiliary_boolean data w srv rr f1
    (Hab : ab w = Some srv)
    (Hgen : GenerateStruct_InternalRaftRequest (NewConsumer data) = (Ok rr, f1)) :
  let evs := events_of (FuzzapplierV3backendApply data) w in
  let r := applierV3_Apply (ext w) (backends w) srv rr true in
  let applied (decoding : list Event) : Outcome Z * World :=
    (match snd r with
     | None => Returned 1
     | Some v =>
         match catchPanics2 (Some v) with
         | None => Returned 0
         | Some v' => Panicked v'
         end
     end,
     {| ext := fst r; backends := backends w; ab := ab w;
        trace := trace w ++ (decoding ++ [EvApplierApply srv rr true]) |}) in
  evs = (request_decoding rr f1 ++
         (if accepted rr f1 then [EvApplierApply srv rr true] else []))%list /\
  (gated rr = true ->
     count is_get_bool evs = 1%nat /\
     (count is_apply evs = 1%nat <-> exists f2, GetBool f1 = (Ok true, f2)) /\
     (count is_apply evs = 0%nat <-> ~ exists f2, GetBool f1 = (Ok true, f2)) /\
     (forall f2, GetBool f1 = (Ok true, f2) ->
        FuzzapplierV3backendApply data w =
        applied [EvGenerateRequest (Ok rr) f1; EvGetBool (Ok true) f2]) /\
     ((~ exists f2, GetBool f1 = (Ok true, f2)) ->
        FuzzapplierV3backendApply data w =
        (Returned 0,
         add_trace w [EvGenerateRequest (Ok rr) f1;
                      EvGetBool (fst (GetBool f1)) (snd (GetBool f1))]))) /\
  (gated rr = false ->
     count is_get_bool evs = 0%nat /\ count is_apply evs = 1%nat /\
     FuzzapplierV3backendApply data w = applied [EvGenerateRequest (Ok rr) f1]).
Proof.
  intros evs r applied.
  pose proof (FuzzapplierV3backendApply_run data w srv rr f1 Hab Hgen) as Hrun.
  assert (Hevs : evs = (request_decoding rr f1 ++
        (if accepted rr f1 then [EvApplierApply srv rr true] else []))%list).
  { unfold evs. destruct (accepted rr f1).
    - eapply events_of_add_trace. exact Hrun.
    - eapply events_of_add_trace. rewrite Hrun, app_nil_r. reflexivity. }
  split; [exact Hevs|].
  split; intros Hg.
  - assert (Hcounts :
      count is_get_bool evs = 1%nat /\
      (count is_apply evs = 1%nat <-> exists f2, GetBool f1 = (Ok true, f2)) /\
      (count is_apply evs = 0%nat <-> ~ exists f2, GetBool f1 = (Ok true, f2))).
    { rewrite Hevs. unfold request_decoding, accepted, passes, count. rewrite Hg.
      destruct (GetBool f1) as [[[|]|e] f2]; simpl;
        (split; [reflexivity|]); split; split;
        repeat match goal with
               | |- _ -> _ => intro
               | Hx : exists _, _ |- _ => destruct Hx
               | |- ~ _ => intro
               end;
        try discriminate; try reflexivity; try (eexists; reflexivity);
        exfalso; match goal with Hx : ~ _ |- _ => apply Hx; eexists; reflexivity end. }
    destruct Hcounts as (H1 & H2 & H3).
    split; [exact H1|]. split; [exact H2|]. split; [exact H3|]. split.
    + intros f2 Hb. rewrite Hrun.
      unfold accepted, request_decoding, passes. rewrite Hg, Hb. reflexivity.
    + intros Hn. rewrite Hrun.
      unfold accepted, request_decoding, passes. rewrite Hg.
      destruct (GetBool f1) as [[[|]|e] f2]; simpl; try reflexivity.
      exfalso. apply Hn. eexists. reflexivity.
  - split; [|split].
    + rewrite Hevs. unfold request_decoding, accepted. rewrite Hg. reflexivity.
    + rewrite Hevs. unfold request_decoding, accepted. rewrite Hg. reflexivity.
    + rewrite Hrun. unfold accepted, request_decoding. rewrite Hg. reflexivity.
Qed.

(** C10: [shouldPass] decodes at most one boolean, and it treats a request
    as the request with only the first of its set fields, in the order
    [ClusterVersionSet], [ClusterMemberAttrSet], [DowngradeInfoSet]. *)
Theorem shouldPass_first_set_field r f w :
  (count is_get_bool (events_of (shouldPass r f) w) <= 1)%nat /\
  count is_get_bool (events_of (shouldPass r f) w) = (if gated r then 1 else 0)%nat /\
  shouldPass r f w = shouldPass (first_set_field r) f w /\
  shouldPass r f w =
    (if gated r
     then (Returned (passes (GetBool f)),
           add_trace w [EvGetBool (fst (GetBool f)) (snd (GetBool f))])
     else (Returned (true, f), w)).
Proof.
  assert (Hc : count is_get_bool (events_of (shouldPass r f) w) =
               (if gated r then 1 else 0)%nat).
  { destruct (gated r) eqn:Hg.
    - rewrite (appends_events _ _ _ w (shouldPass_gated r f Hg)). reflexivity.
    - rewrite (appends_events _ _ _ w (shouldPass_not_gated r f Hg)). reflexivity. }
  split; [rewrite Hc; destruct (gated r); lia|].
  split; [exact Hc|].
  split; [|apply shouldPass_run].
  rewrite !shouldPass_run.
  replace (gated (first_set_field r)) with (gated r); [reflexivity|].
  destruct r as [[a|] [b|] [c|] rs]; reflexivity.
Qed.

End RequestApply.

(** ** The entry-apply target *)

Section EntryApply.
Context `{Collaborators}.

Lemma Fuzzapply_loop_appends n f ents :
  appends (Fuzzapply_loop n f ents)
    (fst (entries_decoding n f ents)) (snd (entries_decoding n f ents)).
Proof.
  revert f ents. induction n as [|n IH]; intros f ents; simpl.
  - apply appends_ret.
  - intros w. unfold bind at 1. rewrite (appends_generateEntry f w).
    destruct (GenerateStruct_Entry f) as [[ent|e] f']; simpl.
    + destruct (length (Data ent) =? 0)%nat; simpl.
      * reflexivity.
      * rewrite IH, add_trace_app. reflexivity.
    + reflexivity.
Qed.

(** The loop adds at most [n] events, all of them generations of entries. *)
Lemma entries_decoding_events n f ents :
  (length (snd (entries_decoding n f ents)) <= n)%nat /\
  count is_generate_entry (snd (entries_decoding n f ents)) =
    length (snd (entries_decoding n f ents)) /\
  List.filter is_decode (snd (entries_decoding n f ents)) =
    snd (entries_decoding n f ents) /\
  count is_apply (snd (entries_decoding n f ents)) = 0%nat.
Proof.
  unfold count. revert f ents. induction n as [|n IH]; intros f ents; simpl.
  - repeat split; lia.
  - destruct (GenerateStruct_Entry f) as [[ent|e] f']; simpl.
    + destruct (length (Data ent) =? 0)%nat; simpl.
      * repeat split; lia.
      * destruct (IH f' (ents ++ [ent])) as (H1 & H2 & H3 & H4).
        repeat split; [lia | congruence | congruence | exact H4].
    + repeat split; lia.
Qed.

(** When the loop completes, it ran [n] times, every generation gave an
    entry with data, and the entries were added in order. *)
Lemma entries_decoding_Some n f ents ents' :
  fst (entries_decoding n f ents) = Some ents' ->
  length (snd (entries_decoding n f ents)) = n /\
  length ents' = (length ents + n)%nat /\
  count is_rejected_entry (snd (entries_decoding n f ents)) = 0%nat.
Proof.
  unfold count. revert f ents. induction n as [|n IH]; intros f ents; simpl.
  - intros [= <-]. repeat split; lia.
  - destruct (GenerateStruct_Entry f) as [[ent|e] f']; simpl; [|discriminate].
    destruct (length (Data ent) =? 0)%nat eqn:Hd; simpl; [discriminate|].
    intros Hs. destruct (IH f' (ents ++ [ent]) Hs) as (H1 & H2 & H3).
    rewrite length_app in H2. simpl in H2. rewrite Hd.
    repeat split; [lia | lia | exact H3].
Qed.

(** When the loop returns 0, the last generation is the one rejected, and
    the only one. *)
Lemma entries_decoding_None n f ents :
  fst (entries_decoding n f ents) = None ->
  exists pre e,
    snd (entries_decoding n f ents) = (pre ++ [e])%list /\
    is_rejected_entry e = true /\
    count is_rejected_entry pre = 0%nat.
Proof.
  unfold count. revert f ents. induction n as [|n IH]; intros f ents; simpl.
  - discriminate.
  - destruct (GenerateStruct_Entry f) as [[ent|e] f'] eqn:Hg; simpl.
    + destruct (length (Data ent) =? 0)%nat eqn:Hd; simpl.
      * intros _. exists [], (EvGenerateEntry (Ok ent) f'). simpl. rewrite Hd. auto.
      * intros Hn. destruct (IH f' (ents ++ [ent]) Hn) as (pre & e & H1 & H2 & H3).
        exists (EvGenerateEntry (Ok ent) f' :: pre), e. simpl. rewrite H1, Hd. auto.
    + intros _. exists [], (EvGenerateEntry (Err e) f'). simpl. auto.
Qed.

Lemma alter_new_backend (g : Backend -> Backend) (bs : list Backend) (b : Backend) :
  alter g (length bs) (bs ++ [b]) = bs ++ [g b].
Proof.
  rewrite alter_app_r_alt by lia. rewrite Nat.sub_diag. reflexivity.
Qed.

(** A run of [Fuzzapply] on a buffer whose integer does not decode. *)
Lemma Fuzzapply_run_Err data w e f1 :
  GetInt (NewConsumer data) = (Err e, f1) ->
  Fuzzapply data w = (Returned 0, add_trace w [EvGetInt (Err e) f1]).
Proof.
  intros Hint. unfold Fuzzapply, defer_recover, bind.
  rewrite (appends_getInt (NewConsumer data) w), Hint. reflexivity.
Qed.

(** A run of [Fuzzapply] on a buffer whose integer decodes to [number]. *)
Lemma Fuzzapply_run data w number f1 :
  GetInt (NewConsumer data) = (Ok number, f1) ->
  let d := entries_decoding (Z.to_nat (Z.rem number 20)) f1 [] in
  let decoding := EvGetInt (Ok number) f1 :: snd d in
  Fuzzapply data w =
  match fst d with
  | None => (Returned 0, add_trace w decoding)
  | Some ents =>
      if (length ents =? 0)%nat then (Returned 0, add_trace w decoding)
      else
        let be := length (backends w) in
        let r := EtcdServer_apply (ext w)
                   (backends w ++ [{| be_open := true; be_meta := true |}])
                   (fresh_server be) ents ConfState_zero in
        (match snd r with
         | None => Returned 1
         | Some v =>
             match catchPanics (Some v) with
             | None => Returned 0
             | Some v' => Panicked v'
             end
         end,
         {| ext := fst r;
            backends := backends w ++ [{| be_open := false; be_meta := true |}];
            ab := ab w;
            trace := trace w ++ (decoding ++ entries_execution be ents) |})
  end.
Proof.
  intros Hint d decoding.
  unfold Fuzzapply, defer_recover, bind at 1.
  rewrite (appends_getInt (NewConsumer data) w), Hint. simpl fst; simpl snd.
  unfold bind at 1. rewrite Fuzzapply_loop_appends, add_trace_app. fold d.
  change ([EvGetInt (Ok number) f1] ++ snd d)%list with decoding.
  destruct (fst d) as [ents|]; [|reflexivity].
  destruct (length ents =? 0)%nat; [reflexivity|].
  unfold bind, defer_call, NewDefaultTmpBackend, CreateMetaBucket, srv_apply, Close, ret.
  simpl. rewrite !alter_new_backend. simpl.
  fold (fresh_server (length (backends w))).
  destruct (EtcdServer_apply _ _ _ _ _) as [x [v|]]; simpl;
    rewrite ?alter_new_backend, <- ?app_assoc; simpl.
  - destruct (catchPanics (Some v)); unfold entries_execution;
      rewrite <- ?app_assoc; reflexivity.
  - unfold entries_execution. rewrite <- ?app_assoc. reflexivity.
Qed.

Lemma count_app (p : Event -> bool) (l1 l2 : list Event) :
  count p (l1 ++ l2) = (count p l1 + count p l2)%nat.
Proof. unfold count. rewrite List.filter_app, length_app. reflexivity. Qed.

Lemma count_In (p : Event -> bool) (l : list Event) (e : Event) :
  In e l -> p e = true -> (1 <= count p l)%nat.
Proof.
  unfold count. intros Hin Hp.
  assert (Hf : In e (List.filter p l)) by (apply List.filter_In; auto).
  destruct (List.filter p l); [destruct Hf | simpl; lia].
Qed.

(** The events of a call of [Fuzzapply] whose integer decodes. *)
Lemma Fuzzapply_events data w number f1 :
  GetInt (NewConsumer data) = (Ok number, f1) ->
  let d := entries_decoding (Z.to_nat (Z.rem number 20)) f1 [] in
  events_of (Fuzzapply data) w =
  (EvGetInt (Ok number) f1 :: snd d) ++
  match fst d with
  | None => []
  | Some ents =>
      if (length ents =? 0)%nat then []
      else entries_execution (length (backends w)) ents
  end.
Proof.
  intros Hint d. pose proof (Fuzzapply_run data w number f1 Hint) as Hrun.
  cbv zeta in Hrun. fold d in Hrun.
  destruct (fst d) as [ents|].
  - destruct (length ents =? 0)%nat.
    + eapply events_of_add_trace. rewrite Hrun, app_nil_r. reflexivity.
    + eapply events_of_add_trace. exact Hrun.
  - eapply events_of_add_trace. rewrite Hrun, app_nil_r. reflexivity.
Qed.

(** C5, as the code has it: with [number] the decoded integer, the loop is
    bounded by [number%20] in Go's truncated remainder, so by zero when that
    is zero or negative. At most that many generations are attempted, exactly
    that many when none is rejected and whenever the apply is invoked; when
    [number%20] is zero or negative the call returns 0 with no generation
    attempted. *)
Theorem entries_generated_bound data w number f1
    (Hint : GetInt (NewConsumer data) = (Ok number, f1)) :
  let evs := events_of (Fuzzapply data) w in
  let c := Z.to_nat (Z.rem number 20) in
  (count is_generate_entry evs <= c)%nat /\
  (count is_rejected_entry evs = 0%nat -> count is_generate_entry evs = c) /\
  (forall srv ents cs, In (EvApply srv ents cs) evs ->
     length ents = c /\ count is_generate_entry evs = c) /\
  (Z.rem number 20 <= 0 ->
     Fuzzapply data w = (Returned 0, add_trace w [EvGetInt (Ok number) f1])).
Proof.
  intros evs c. unfold evs. rewrite (Fuzzapply_events data w number f1 Hint).
  fold c. set (d := entries_decoding c f1 []).
  destruct (entries_decoding_events c f1 []) as (Hlen & Hgen & _ & _). fold d in Hlen, Hgen.
  assert (Hcount : forall ex, count is_generate_entry ex = 0%nat ->
            count is_generate_entry ((EvGetInt (Ok number) f1 :: snd d) ++ ex) =
            length (snd d)).
  { intros ex Hex. rewrite count_app, Hex.
    change (EvGetInt (Ok number) f1 :: snd d) with ([EvGetInt (Ok number) f1] ++ snd d).
    rewrite count_app, Hgen. simpl. lia. }
  assert (Hex : count is_generate_entry
            match fst d with
            | None => []
            | Some ents =>
                if (length ents =? 0)%nat then []
                else entries_execution (length (backends w)) ents
            end = 0%nat).
  { destruct (fst d) as [ents|]; [destruct (length ents =? 0)%nat|]; reflexivity. }
  rewrite (Hcount _ Hex).
  split; [exact Hlen|]. split; [|split].
  - intros Hrej. destruct (fst d) as [ents|] eqn:Hd.
    + apply (entries_decoding_Some c f1 [] ents Hd).
    + destruct (entries_decoding_None c f1 [] Hd) as (pre & e & Hpre & He & _).
      fold d in Hpre. exfalso.
      assert (1 <= count is_rejected_entry ((EvGetInt (Ok number) f1 :: snd d) ++ []))%nat.
      { apply (count_In _ _ e); [|exact He].
        rewrite app_nil_r, Hpre. right. apply in_or_app. right. left. reflexivity. }
      lia.
  - intros srv ents cs Hin. apply in_app_or in Hin. destruct Hin as [Hin|Hin].
    + exfalso. destruct (entries_decoding_events c f1 []) as (_ & _ & _ & Hap).
      fold d in Hap.
      assert (1 <= count is_apply (snd d))%nat; [|lia].
      apply (count_In _ _ (EvApply srv ents cs)); [|reflexivity].
      destruct Hin as [Hin|Hin]; [discriminate|exact Hin].
    + destruct (fst d) as [ents'|] eqn:Hd; [|destruct Hin].
      destruct (entries_decoding_Some c f1 [] ents' Hd) as (H1 & H2 & _).
      fold d in H1. simpl in H2.
      destruct (length ents' =? 0)%nat; [destruct Hin|].
      unfold entries_execution in Hin. simpl in Hin.
      destruct Hin as [Hin|[Hin|[Hin|[]]]]; try discriminate.
      injection Hin as _ <- _. split; [exact H2|exact H1].
  - intros Hle. rewrite (Fuzzapply_run data w number f1 Hint). cbv zeta.
    replace (Z.to_nat (Z.rem number 20)) with O by lia. reflexivity.
Qed.

(** C6: when the generation of an entry fails, or gives an entry with no
    data, [Fuzzapply] returns 0, that generation is the last event of the
    call (no entry is generated after it, no backend is created, nothing is
    applied), and the state of etcd and the backends are as they were. *)
Theorem rejected_entry_stops data w e
    (Hin : In e (events_of (Fuzzapply data) w))
    (Hrej : is_rejected_entry e = true) :
  fst (Fuzzapply data w) = Returned 0 /\
  (exists pre, events_of (Fuzzapply data) w = pre ++ [e] /\
               count is_rejected_entry pre = 0%nat) /\
  count is_apply (events_of (Fuzzapply data) w) = 0%nat /\
  ext (snd (Fuzzapply data w)) = ext w /\
  backends (snd (Fuzzapply data w)) = backends w.
Proof.
  destruct (GetInt (NewConsumer data)) as [[number|err] f1] eqn:Hint.
  - rewrite (Fuzzapply_events data w number f1 Hint) in *.
    pose proof (Fuzzapply_run data w number f1 Hint) as Hrun. cbv zeta in Hrun.
    set (d := entries_decoding (Z.to_nat (Z.rem number 20)) f1 []) in *.
    destruct (entries_decoding_events (Z.to_nat (Z.rem number 20)) f1 [])
      as (_ & _ & _ & Hap). fold d in Hap.
    destruct (fst d) as [ents|] eqn:Hd.
    + exfalso.
      destruct (entries_decoding_Some _ f1 [] ents Hd) as (_ & _ & Hnone).
      fold d in Hnone.
      assert (1 <= count is_rejected_entry (snd d))%nat; [|lia].
      apply (count_In _ _ e); [|exact Hrej].
      apply in_app_or in Hin. destruct Hin as [[<-|Hin]|Hin];
        [discriminate | exact Hin |].
      destruct (length ents =? 0)%nat; [destruct Hin|].
      unfold entries_execution in Hin. simpl in Hin.
      destruct Hin as [<-|[<-|[<-|[]]]]; discriminate.
    + destruct (entries_decoding_None _ f1 [] Hd) as (pre & e' & Hpre & He' & Hnone).
      fold d in Hpre. rewrite app_nil_r in *. rewrite Hpre in *.
      assert (e = e') as ->.
      { destruct Hin as [<-|Hin]; [discriminate|].
        apply in_app_or in Hin. destruct Hin as [Hin|[Hin|[]]]; [|congruence].
        exfalso. pose proof (count_In _ _ e Hin Hrej). lia. }
      rewrite Hrun. simpl.
      split; [reflexivity|]. split; [|split; [|split; reflexivity]].
      * exists (EvGetInt (Ok number) f1 :: pre). split; [reflexivity|exact Hnone].
      * change (EvGetInt (Ok number) f1 :: pre ++ [e'])
          with ([EvGetInt (Ok number) f1] ++ (pre ++ [e'])).
        rewrite count_app, Hap. reflexivity.
  - exfalso. pose proof (Fuzzapply_run_Err data w err f1 Hint) as Hrun.
    rewrite (events_of_add_trace _ _ _ _ _ _ _ Hrun) in Hin.
    destruct Hin as [<-|[]]. discriminate.
Qed.

(** C8: on a buffer whose integer gives one iteration and whose one entry
    is generated with data, when the apply does not panic, [Fuzzapply]
    creates a new backend, builds a server on it, invokes the apply once,
    with that entry alone and the zero [ConfState], while the backend is
    open, closes the backend and returns 1. The results of the apply are
    dropped; the state of etcd is the one the apply left. *)
Theorem one_entry_applied_once data w number f1 ent f2 x'
    (Hint : GetInt (NewConsumer data) = (Ok number, f1))
    (Hone : Z.rem number 20 = 1)
    (Hgen : GenerateStruct_Entry f1 = (Ok ent, f2))
    (Hdata : Data ent <> [])
    (Happly : EtcdServer_apply (ext w)
                (backends w ++ [{| be_open := true; be_meta := true |}])
                (fresh_server (length (backends w))) [ent] ConfState_zero = (x', None)) :
  let be := length (backends w) in
  Fuzzapply data w =
  (Returned 1,
   {| ext := x';
      backends := backends w ++ [{| be_open := false; be_meta := true |}];
      ab := ab w;
      trace := trace w ++
               [EvGetInt (Ok number) f1; EvGenerateEntry (Ok ent) f2;
                EvNewBackend be; EvApply (fresh_server be) [ent] ConfState_zero;
                EvClose be] |}) /\
  backends w !! be = None /\
  count is_apply (events_of (Fuzzapply data) w) = 1%nat.
Proof.
  intros be.
  assert (Hrun : Fuzzapply data w =
    (Returned 1,
     {| ext := x';
        backends := backends w ++ [{| be_open := false; be_meta := true |}];
        ab := ab w;
        trace := trace w ++
                 [EvGetInt (Ok number) f1; EvGenerateEntry (Ok ent) f2;
                  EvNewBackend be; EvApply (fresh_server be) [ent] ConfState_zero;
                  EvClose be] |})).
  { rewrite (Fuzzapply_run data w number f1 Hint). cbv zeta. rewrite Hone.
    change (Z.to_nat 1) with 1%nat. simpl. rewrite Hgen. simpl.
    destruct (Data ent) as [|b bs] eqn:Hd; [congruence|]. simpl.
    rewrite Happly. reflexivity. }
  split; [exact Hrun|]. split.
  - apply lookup_ge_None. unfold be. lia.
  - rewrite (events_of_add_trace _ _ _ _ _ _ _ Hrun). reflexivity.
Qed.

End EntryApply.

(** ** The process *)

Section Process.
Context `{Collaborators}.

Lemma events_of_trace {A} (m : M A) (w : World) (l : list Event) :
  trace (snd (m w)) = trace w ++ l -> events_of m w = l.
Proof.
  intros Ht. unfold events_of. rewrite Ht, drop_app_length. reflexivity.
Qed.

(** What a call of [Fuzzapply] does to the world: backends are only added,
    [ab] is kept, and the decoding events are those of the buffer. *)
Lemma Fuzzapply_world data w :
  ab (snd (Fuzzapply data w)) = ab w /\
  (exists extra, backends (snd (Fuzzapply data w)) = backends w ++ extra) /\
  (exists l, trace (snd (Fuzzapply data w)) = trace w ++ l /\
             List.filter is_decode l = Fuzzapply_decoding data).
Proof.
  unfold Fuzzapply_decoding.
  destruct (GetInt (NewConsumer data)) as [[number|err] f1] eqn:Hint; simpl.
  - rewrite (Fuzzapply_run data w number f1 Hint). cbv zeta.
    set (d := entries_decoding (Z.to_nat (Z.rem number 20)) f1 []).
    destruct (entries_decoding_events (Z.to_nat (Z.rem number 20)) f1 [])
      as (_ & _ & Hdec & _). fold d in Hdec.
    assert (Hrej : ab (add_trace w (EvGetInt (Ok number) f1 :: snd d)) = ab w /\
      (exists extra, backends (add_trace w (EvGetInt (Ok number) f1 :: snd d)) =
                     backends w ++ extra) /\
      (exists l, trace (add_trace w (EvGetInt (Ok number) f1 :: snd d)) = trace w ++ l /\
                 List.filter is_decode l = EvGetInt (Ok number) f1 :: snd d)).
    { split; [reflexivity|]. split.
      - exists []. simpl. rewrite app_nil_r. reflexivity.
      - exists (EvGetInt (Ok number) f1 :: snd d). split; [reflexivity|].
        simpl. rewrite Hdec. reflexivity. }
    destruct (fst d) as [ents|]; [|exact Hrej].
    destruct (length ents =? 0)%nat; [exact Hrej|]. simpl.
    split; [reflexivity|]. split; [eexists; reflexivity|].
    exists ((EvGetInt (Ok number) f1 :: snd d) ++
            entries_execution (length (backends w)) ents).
    split; [reflexivity|].
    rewrite List.filter_app. simpl. rewrite Hdec, app_nil_r. reflexivity.
  - rewrite (Fuzzapply_run_Err data w err f1 Hint). simpl.
    split; [reflexivity|]. split.
    + exists []. rewrite app_nil_r. reflexivity.
    + exists [EvGetInt (Err err) f1]. split; reflexivity.
Qed.

(** What a call of [FuzzapplierV3backendApply] does to the world: the
    backends and [ab] are kept, and the decoding events are those of the
    buffer. *)
Lemma FuzzapplierV3backendApply_world data w :
  ab (snd (FuzzapplierV3backendApply data w)) = ab w /\
  backends (snd (FuzzapplierV3backendApply data w)) = backends w /\
  (exists l, trace (snd (FuzzapplierV3backendApply data w)) = trace w ++ l /\
             List.filter is_decode l = FuzzapplierV3backendApply_decoding data).
Proof.
  assert (Hex : exists o w',
    FuzzapplierV3backendApply data w = (o, w') /\
    ab w' = ab w /\ backends w' = backends w /\
    exists l, trace w' = trace w ++ l /\
              List.filter is_decode l = FuzzapplierV3backendApply_decoding data).
  { unfold FuzzapplierV3backendApply_decoding, FuzzapplierV3backendApply,
      defer_recover, bind at 1.
    rewrite (appends_generateRequest (NewConsumer data) w).
    destruct (GenerateStruct_InternalRaftRequest (NewConsumer data)) as [[rr|e] f1];
      simpl fst; simpl snd; cbv iota.
    - unfold bind at 1. rewrite shouldPass_run. unfold request_decoding.
      destruct (gated rr); [destruct (passes (GetBool f1)) as [[|] f2]|];
        unfold bind, ab_Apply, ret; simpl;
        try (destruct (ab w) as [srv|] eqn:Hab;
             [destruct (applierV3_Apply _ _ _ _ _) as [x [v|]]; simpl;
              [destruct (catchPanics2 (Some v)); simpl|]
             |destruct (catchPanics2 (Some _)); simpl]);
        eexists _, _; (split; [reflexivity|]); simpl;
        (split; [first [exact Hab | reflexivity]|]);
        (split; [reflexivity|]);
        rewrite <- ?app_assoc;
        eexists; (split; [reflexivity|reflexivity]).
    - simpl. eexists _, _. split; [reflexivity|]. simpl.
      split; [reflexivity|]. split; [reflexivity|].
      eexists. split; reflexivity. }
  destruct Hex as (o & w' & -> & Ha & Hb & Hl). simpl. auto.
Qed.

(** The decoding events of a call are the same in any two worlds: the
    targets hand nothing of the world to the decoders. *)
Lemma decoding_deterministic data w1 w2 :
  List.filter is_decode (events_of (Fuzzapply data) w1) =
  List.filter is_decode (events_of (Fuzzapply data) w2) /\
  List.filter is_decode (events_of (FuzzapplierV3backendApply data) w1) =
  List.filter is_decode (events_of (FuzzapplierV3backendApply data) w2) /\
  List.filter is_decode (events_of (Fuzzapply data) w1) = Fuzzapply_decoding data /\
  List.filter is_decode (events_of (FuzzapplierV3backendApply data) w1) =
  FuzzapplierV3backendApply_decoding data.
Proof.
  assert (HA : forall w, List.filter is_decode (events_of (Fuzzapply data) w) =
                         Fuzzapply_decoding data).
  { intros w. destruct (Fuzzapply_world data w) as (_ & _ & l & Ht & Hl).
    rewrite (events_of_trace _ _ _ Ht). exact Hl. }
  assert (HB : forall w,
            List.filter is_decode (events_of (FuzzapplierV3backendApply data) w) =
            FuzzapplierV3backendApply_decoding data).
  { intros w. destruct (FuzzapplierV3backendApply_world data w) as (_ & _ & l & Ht & Hl).
    rewrite (events_of_trace _ _ _ Ht). exact Hl. }
  rewrite !HA, !HB. repeat split.
Qed.

Lemma init_ab_on_closed_backend x :
  ab_on_closed_backend (snd (init (World0 x))).
Proof. split; reflexivity. Qed.

Lemma run_call_ab_on_closed_backend c w :
  ab_on_closed_backend w -> ab_on_closed_backend (snd (run_call c w)).
Proof.
  intros [Hab Hbe]. destruct c as [data|data]; simpl.
  - destruct (Fuzzapply_world data w) as (Ha & [extra Hb] & _).
    split; [congruence|]. rewrite Hb. apply lookup_app_l_Some, Hbe.
  - destruct (FuzzapplierV3backendApply_world data w) as (Ha & Hb & _).
    split; congruence.
Qed.

Lemma run_calls_ab_on_closed_backend cs w :
  ab_on_closed_backend w -> ab_on_closed_backend (run_calls cs w).
Proof.
  revert w. induction cs as [|c cs IH]; intros w Hw; simpl; [exact Hw|].
  pose proof (run_call_ab_on_closed_backend c w Hw) as Hc.
  destruct (run_call c w) as [[a|v] w']; simpl in Hc; auto.
Qed.

(** C2: [init] defers the [Close] of its backend, so the backend behind
    [ab] is closed when [init] returns, and it is closed at every call that
    follows: nothing opens it again. *)
Theorem init_backend_closed x cs :
  ab_backend_open (snd (init (World0 x))) = false /\
  ab_backend_open (run_calls cs (snd (init (World0 x)))) = false /\
  ab (run_calls cs (snd (init (World0 x)))) = Some init_server /\
  backends (run_calls cs (snd (init (World0 x)))) !! consistIndex init_server =
    Some {| be_open := false; be_meta := true |}.
Proof.
  split; [reflexivity|].
  destruct (run_calls_ab_on_closed_backend cs _ (init_ab_on_closed_backend x))
    as [Hab Hbe].
  unfold ab_backend_open. rewrite Hab.
  change (consistIndex init_server) with 0%nat. rewrite Hbe. auto.
Qed.

End Process.

(** ** More on the panic handlers *)

(** X1: a handler suppresses a recovered value exactly when the message it
    derives contains one of the patterns of its allow-list. *)
Theorem handler_suppresses_iff_contains (v : Variant) (r : PanicValue) :
  handler v (Some r) = None <->
  exists pat a b,
    In pat (allowlist v) /\ derived_message v r = (a ++ pat ++ b)%string.
Proof.
  rewrite handler_allowed.
  destruct (allowed (allowlist v) (derived_message v r)) eqn:Ha.
  - split; [intros _|reflexivity].
    apply existsb_exists in Ha. destruct Ha as (pat & Hin & Hc).
    apply Contains_spec in Hc. destruct Hc as (a & b & Hab).
    exists pat, a, b. split; assumption.
  - split; [discriminate|].
    intros (pat & a & b & Hin & Hab). exfalso.
    assert (Ht : allowed (allowlist v) (derived_message v r) = true).
    { apply existsb_exists. exists pat. split; [exact Hin|].
      apply Contains_spec. exists a, b. exact Hab. }
    congruence.
Qed.

(** X2: a recovered value for which a handler derives the empty message is
    never suppressed: the handler panics with the empty string. This is the
    case of an empty string, of a value that is neither a string nor an
    error, and under [catchPanics] of an error that is not a runtime
    error. *)
Theorem empty_message_reraised (v : Variant) (r : PanicValue)
    (Hempty : derived_message v r = "") :
  handler v (Some r) = Some (PString "").
Proof.
  rewrite handler_allowed, Hempty. destruct v; reflexivity.
Qed.

Lemma empty_message_reraised_witness :
  derived_message Variant2 (POther "42") = "" /\
  handler Variant2 (Some (POther "42")) = Some (PString "").
Proof.
  split; [reflexivity|].
  exact (empty_message_reraised Variant2 (POther "42") eq_refl).
Defined.

Lemma recovered_outcome_allowed (v : Variant) (val : PanicValue) :
  recovered_outcome (handler v) val =
  if allowed (allowlist v) (derived_message v val) then Returned 0
  else Panicked (PString (derived_message v val)).
Proof.
  unfold recovered_outcome. rewrite handler_allowed.
  destruct (allowed _ _); reflexivity.
Qed.

(** ** More on the request-apply target *)

Section RequestApplyOutcomes.
Context `{Collaborators}.

(** A run of [FuzzapplierV3backendApply], in all its cases. *)
Lemma FuzzapplierV3backendApply_cases data w :
  FuzzapplierV3backendApply data w =
  match GenerateStruct_InternalRaftRequest (NewConsumer data) with
  | (Err e, f1) => (Returned 0, add_trace w [EvGenerateRequest (Err e) f1])
  | (Ok rr, f1) =>
      if accepted rr f1 then
        match ab w with
        | None =>
            (recovered_outcome catchPanics2 (PRuntimeError nil_dereference),
             add_trace w (request_decoding rr f1))
        | Some srv =>
            let r := applierV3_Apply (ext w) (backends w) srv rr true in
            (match snd r with
             | None => Returned 1
             | Some v => recovered_outcome catchPanics2 v
             end,
             {| ext := fst r; backends := backends w; ab := ab w;
                trace := trace w ++
                         (request_decoding rr f1 ++ [EvApplierApply srv rr true]) |})
        end
      else (Returned 0, add_trace w (request_decoding rr f1))
  end.
Proof.
  destruct (GenerateStruct_InternalRaftRequest (NewConsumer data))
    as [[rr|e] f1] eqn:Hgen.
  - destruct (ab w) as [srv|] eqn:Hab.
    + rewrite (FuzzapplierV3backendApply_run data w srv rr f1 Hab Hgen).
      rewrite Hab. reflexivity.
    + unfold FuzzapplierV3backendApply, defer_recover, bind at 1.
      rewrite (appends_generateRequest (NewConsumer data) w), Hgen.
      simpl fst; simpl snd. unfold bind at 1. rewrite shouldPass_run.
      unfold accepted, request_decoding, recovered_outcome, nil_dereference.
      destruct (gated rr); [destruct (passes (GetBool f1)) as [[|] f2]|];
        unfold bind, ab_Apply, ret; simpl; rewrite ?Hab; simpl;
        first [ rewrite ?add_trace_app; reflexivity
              | destruct (catchPanics2 (Some (PRuntimeError _)));
                rewrite ?add_trace_app; reflexivity ].
  - unfold FuzzapplierV3backendApply, defer_recover, bind.
    rewrite (appends_generateRequest (NewConsumer data) w), Hgen. reflexivity.
Qed.

(** X4: the outcomes of [FuzzapplierV3backendApply]: it returns 0 or 1, and 1
    only after the apply was invoked, once; a panic that leaves it carries a
    string that is on no allow-list. A call decodes once or twice and invokes
    the apply at most once. *)
Theorem FuzzapplierV3backendApply_outcomes data w :
  match fst (FuzzapplierV3backendApply data w) with
  | Returned z =>
      z = 0 \/
      (z = 1 /\
       count is_apply (events_of (FuzzapplierV3backendApply data) w) = 1%nat)
  | Panicked v => exists s, v = PString s /\ allowed allowlist2 s = false
  end /\
  (count is_apply (events_of (FuzzapplierV3backendApply data) w) <= 1)%nat /\
  (1 <= count is_decode (events_of (FuzzapplierV3backendApply data) w) <= 2)%nat.
Proof.
  assert (Hrec : forall val,
    match recovered_outcome catchPanics2 val with
    | Returned z => z = 0
    | Panicked v => exists s, v = PString s /\ allowed allowlist2 s = false
    end).
  { intros val. pose proof (recovered_outcome_allowed Variant2 val) as Hr.
    unfold handler, derived_message, allowlist in Hr. rewrite Hr.
    destruct (allowed allowlist2 (catchPanics2_err val)) eqn:Ha; [reflexivity|].
    eexists. split; [reflexivity|exact Ha]. }
  pose proof (FuzzapplierV3backendApply_cases data w) as Hrun.
  destruct (GenerateStruct_InternalRaftRequest (NewConsumer data)) as [[rr|e] f1].
  - assert (Hdec : (1 <= count is_decode (request_decoding rr f1) <= 2)%nat).
    { unfold request_decoding, count. destruct (gated rr); simpl; lia. }
    assert (Hdap : count is_apply (request_decoding rr f1) = 0%nat).
    { unfold request_decoding, count. destruct (gated rr); reflexivity. }
    destruct (accepted rr f1); [destruct (ab w) as [srv|]|].
    + cbv zeta in Hrun.
      rewrite (events_of_add_trace _ _ _ _ _ _ _ Hrun), Hrun. simpl fst.
      rewrite !count_app, Hdap.
      change (count is_apply [EvApplierApply srv rr true]) with 1%nat.
      change (count is_decode [EvApplierApply srv rr true]) with 0%nat.
      split; [|split; lia].
      destruct (snd (applierV3_Apply _ _ _ _ _)) as [v|].
      * specialize (Hrec v). destruct (recovered_outcome catchPanics2 v);
          [left; exact Hrec|exact Hrec].
      * right. split; reflexivity.
    + rewrite (events_of_add_trace _ _ _ _ _ _ _ Hrun), Hrun, Hdap. simpl fst.
      split; [|split; [lia|exact Hdec]].
      specialize (Hrec (PRuntimeError nil_dereference)).
      destruct (recovered_outcome catchPanics2 _); [left; exact Hrec|exact Hrec].
    + rewrite (events_of_add_trace _ _ _ _ _ _ _ Hrun), Hrun, Hdap. simpl.
      split; [left; reflexivity|]. split; [lia|exact Hdec].
  - rewrite (events_of_add_trace _ _ _ _ _ _ _ Hrun), Hrun. simpl.
    split; [left; reflexivity|]. unfold count. simpl. lia.
Qed.

(** X8: when [FuzzapplierV3backendApply] does not invoke the apply, in a world
    where [ab] is set, it returns 0 and changes nothing: the state of etcd,
    the backends and [ab] are as before. *)
Theorem FuzzapplierV3backendApply_rejection data w srv
    (Hab : ab w = Some srv)
    (Hno : count is_apply (events_of (FuzzapplierV3backendApply data) w) = 0%nat) :
  FuzzapplierV3backendApply data w =
  (Returned 0, add_trace w (FuzzapplierV3backendApply_decoding data)).
Proof.
  pose proof (FuzzapplierV3backendApply_cases data w) as Hrun.
  unfold FuzzapplierV3backendApply_decoding.
  destruct (GenerateStruct_InternalRaftRequest (NewConsumer data)) as [[rr|e] f1];
    simpl fst; simpl snd; cbv iota; [|exact Hrun].
  destruct (accepted rr f1); [|exact Hrun].
  rewrite Hab in Hrun. cbv zeta in Hrun. exfalso.
  rewrite (events_of_add_trace _ _ _ _ _ _ _ Hrun), !count_app in Hno.
  unfold count at 2 in Hno. simpl in Hno. lia.
Qed.

(** X10: a panic of the request apply whose message is on no allow-list leaves
    [FuzzapplierV3backendApply] as a panic with that message; the state of
    etcd is the one the apply left. *)
Theorem request_panic_propagates data w srv rr f1 x' v
    (Hab : ab w = Some srv)
    (Hgen : GenerateStruct_InternalRaftRequest (NewConsumer data) = (Ok rr, f1))
    (Hacc : accepted rr f1 = true)
    (Happly : applierV3_Apply (ext w) (backends w) srv rr true = (x', Some v))
    (Hno : allowed allowlist2 (catchPanics2_err v) = false) :
  FuzzapplierV3backendApply data w =
  (Panicked (PString (catchPanics2_err v)),
   {| ext := x'; backends := backends w; ab := ab w;
      trace := trace w ++ (request_decoding rr f1 ++ [EvApplierApply srv rr true]) |}).
Proof.
  rewrite FuzzapplierV3backendApply_cases, Hgen, Hacc, Hab. cbv zeta.
  rewrite Happly. cbn [fst snd].
  pose proof (recovered_outcome_allowed Variant2 v) as Hr.
  unfold handler, derived_message, allowlist in Hr.
  rewrite Hr, Hno. reflexivity.
Qed.

End RequestApplyOutcomes.

(** ** More on the entry-apply target *)

Section EntryApplyOutcomes.
Context `{Collaborators}.

Lemma generated_entries_app l1 l2 :
  generated_entries (l1 ++ l2) = generated_entries l1 ++ generated_entries l2.
Proof.
  induction l1 as [|e l1 IH]; simpl; [reflexivity|].
  destruct e as [| | [ent|err] f | | | | |]; simpl; rewrite IH; reflexivity.
Qed.

(** When the loop completes, its entries are the ones it started with and
    the generated ones, in order, and each generated entry has data. *)
Lemma entries_decoding_generated n f ents ents' :
  fst (entries_decoding n f ents) = Some ents' ->
  ents' = ents ++ generated_entries (snd (entries_decoding n f ents)) /\
  Forall (fun ent => Data ent <> []) (generated_entries (snd (entries_decoding n f ents))).
Proof.
  revert f ents. induction n as [|n IH]; intros f ents; simpl.
  - intros [= <-]. rewrite app_nil_r. split; [reflexivity|constructor].
  - destruct (GenerateStruct_Entry f) as [[ent|e] f']; simpl; [|discriminate].
    destruct (length (Data ent) =? 0)%nat eqn:Hd; simpl; [discriminate|].
    intros Hs. destruct (IH f' (ents ++ [ent]) Hs) as (H1 & H2).
    rewrite <- app_assoc in H1. split; [exact H1|].
    constructor; [|exact H2].
    intros Hnil. rewrite Hnil in Hd. discriminate.
Qed.

Lemma rem_20_iterations (number : Z) : (Z.to_nat (Z.rem number 20) <= 19)%nat.
Proof.
  destruct (Z.le_gt_cases 0 number) as [Hpos|Hneg].
  - pose proof (Z.rem_bound_pos number 20 Hpos ltac:(lia)). lia.
  - pose proof (Z.rem_bound_pos_neg number 20 ltac:(lia) ltac:(lia)). lia.
Qed.

(** The decoding events of [Fuzzapply]: one [GetInt], then at most 19
    generations; no apply. *)
Lemma Fuzzapply_decoding_counts data :
  (count is_generate_entry (Fuzzapply_decoding data) <= 19)%nat /\
  (count is_decode (Fuzzapply_decoding data) <= 20)%nat /\
  List.filter is_decode (Fuzzapply_decoding data) = Fuzzapply_decoding data /\
  count is_apply (Fuzzapply_decoding data) = 0%nat.
Proof.
  unfold Fuzzapply_decoding.
  destruct (GetInt (NewConsumer data)) as [[number|e] f1]; simpl fst; simpl snd;
    cbv iota zeta.
  - destruct (entries_decoding_events (Z.to_nat (Z.rem number 20)) f1 [])
      as (Hlen & Hgen & Hdec & Hap).
    pose proof (rem_20_iterations number) as Hn.
    set (d := entries_decoding (Z.to_nat (Z.rem number 20)) f1 []) in *.
    change (EvGetInt (Ok number) f1 :: snd d) with ([EvGetInt (Ok number) f1] ++ snd d).
    rewrite !count_app, Hgen, Hap, List.filter_app, Hdec.
    unfold count at 3. rewrite Hdec.
    unfold count. simpl. repeat split; lia.
  - unfold count. simpl. repeat split; lia.
Qed.

(** The entries that [Fuzzapply] applies are the generated ones, in order;
    there are between 1 and 19 of them and each has data. *)
Lemma Fuzzapply_entries_Some data ents :
  Fuzzapply_entries data = Some ents ->
  ents = generated_entries (Fuzzapply_decoding data) /\
  (1 <= length ents <= 19)%nat /\
  Forall (fun ent => Data ent <> []) ents.
Proof.
  unfold Fuzzapply_entries, Fuzzapply_decoding.
  destruct (GetInt (NewConsumer data)) as [[number|e] f1]; simpl fst; simpl snd;
    cbv iota zeta; [|discriminate].
  destruct (fst (entries_decoding (Z.to_nat (Z.rem number 20)) f1 []))
    as [ents'|] eqn:Hd; [|discriminate].
  destruct (length ents' =? 0)%nat eqn:Hlen; [discriminate|].
  intros [= <-].
  destruct (entries_decoding_generated _ _ _ _ Hd) as (H1 & H2).
  destruct (entries_decoding_Some _ _ _ _ Hd) as (_ & H3 & _).
  pose proof (rem_20_iterations number) as Hn.
  simpl in H1, H3. apply Nat.eqb_neq in Hlen.
  split; [exact H1|]. split; [lia|]. rewrite H1. exact H2.
Qed.

(** A run of [Fuzzapply], in all its cases. *)
Lemma Fuzzapply_cases data w :
  Fuzzapply data w =
  match Fuzzapply_entries data with
  | None => (Returned 0, add_trace w (Fuzzapply_decoding data))
  | Some ents =>
      let be := length (backends w) in
      let r := EtcdServer_apply (ext w)
                 (backends w ++ [{| be_open := true; be_meta := true |}])
                 (fresh_server be) ents ConfState_zero in
      (match snd r with
       | None => Returned 1
       | Some v => recovered_outcome catchPanics v
       end,
       {| ext := fst r; backends := backends w ++ [closed_backend]; ab := ab w;
          trace := trace w ++ (Fuzzapply_decoding data ++ entries_execution be ents) |})
  end.
Proof.
  unfold Fuzzapply_entries, Fuzzapply_decoding.
  destruct (GetInt (NewConsumer data)) as [[number|e] f1] eqn:Hint;
    simpl fst; simpl snd; cbv iota.
  - rewrite (Fuzzapply_run data w number f1 Hint). cbv zeta.
    destruct (fst (entries_decoding (Z.to_nat (Z.rem number 20)) f1 []))
      as [ents|]; [|reflexivity].
    destruct (length ents =? 0)%nat; reflexivity.
  - apply Fuzzapply_run_Err, Hint.
Qed.

(** The events of a call of [Fuzzapply]. *)
Lemma Fuzzapply_cases_events data w :
  events_of (Fuzzapply data) w =
  Fuzzapply_decoding data ++
  match Fuzzapply_entries data with
  | None => []
  | Some ents => entries_execution (length (backends w)) ents
  end.
Proof.
  pose proof (Fuzzapply_cases data w) as Hrun.
  destruct (Fuzzapply_entries data) as [ents|].
  - eapply events_of_add_trace. exact Hrun.
  - eapply events_of_add_trace. rewrite Hrun, app_nil_r. reflexivity.
Qed.

Lemma Fuzzapply_count_apply data w :
  count is_apply (events_of (Fuzzapply data) w) =
  match Fuzzapply_entries data with None => 0%nat | Some _ => 1%nat end.
Proof.
  rewrite Fuzzapply_cases_events, count_app.
  destruct (Fuzzapply_decoding_counts data) as (_ & _ & _ & ->).
  destruct (Fuzzapply_entries data); reflexivity.
Qed.

(** X3: the outcomes of [Fuzzapply]. It returns 0 when it did not invoke
    the apply, or when the apply panicked with a value whose derived message
    is on the allow-list; it returns 1 when the one apply it invoked
    returned; it panics when the one apply it invoked panicked with a value
    whose derived message is not on the allow-list, and then with that
    message as a string. The state of etcd after the call is the one that
    apply left. *)
Theorem Fuzzapply_outcomes data w :
  let evs := events_of (Fuzzapply data) w in
  let be := length (backends w) in
  let applied (ents : list Entry) : Ext * option PanicValue :=
    EtcdServer_apply (ext w)
      (backends w ++ [{| be_open := true; be_meta := true |}])
      (fresh_server be) ents ConfState_zero in
  match fst (Fuzzapply data w) with
  | Returned z =>
      (z = 0 /\ count is_apply evs = 0%nat) \/
      (z = 0 /\ count is_apply evs = 1%nat /\
       exists ents val,
         In (EvApply (fresh_server be) ents ConfState_zero) evs /\
         applied ents = (ext (snd (Fuzzapply data w)), Some val) /\
         allowed allowlist1 (catchPanics_err val) = true) \/
      (z = 1 /\ count is_apply evs = 1%nat /\
       exists ents,
         In (EvApply (fresh_server be) ents ConfState_zero) evs /\
         applied ents = (ext (snd (Fuzzapply data w)), None))
  | Panicked v =>
      count is_apply evs = 1%nat /\
      exists ents val,
        In (EvApply (fresh_server be) ents ConfState_zero) evs /\
        applied ents = (ext (snd (Fuzzapply data w)), Some val) /\
        allowed allowlist1 (catchPanics_err val) = false /\
        v = PString (catchPanics_err val)
  end.
Proof.
  intros evs be applied. unfold evs, applied, be.
  rewrite Fuzzapply_count_apply, Fuzzapply_cases_events, Fuzzapply_cases.
  destruct (Fuzzapply_entries data) as [ents|]; [|left; split; reflexivity].
  cbv zeta.
  assert (Hin : In (EvApply (fresh_server (length (backends w))) ents ConfState_zero)
                   (Fuzzapply_decoding data ++
                    entries_execution (length (backends w)) ents)).
  { apply in_or_app. right. right. left. reflexivity. }
  destruct (EtcdServer_apply (ext w)
              (backends w ++ [{| be_open := true; be_meta := true |}])
              (fresh_server (length (backends w))) ents ConfState_zero)
    as [x [val|]] eqn:Happ; cbn [fst snd ext].
  - pose proof (recovered_outcome_allowed Variant1 val) as Hr.
    unfold handler, derived_message, allowlist in Hr. rewrite Hr.
    destruct (allowed allowlist1 (catchPanics_err val)) eqn:Ha.
    + right. left. split; [reflexivity|]. split; [reflexivity|].
      exists ents, val. repeat split; assumption.
    + split; [reflexivity|]. exists ents, val. repeat split; assumption.
  - right. right. split; [reflexivity|]. split; [reflexivity|].
    exists ents. split; [exact Hin|exact Happ].
Qed.

(** X5: the backend of a call of [Fuzzapply] is scoped to the call: on every
    path out of the call (return 0, return 1, panic) the backends that were
    there are as they were, and the one the call created, which it does
    exactly when it invokes the apply, is closed. [ab] is not touched. *)
Theorem Fuzzapply_backend_scoped data w :
  backends (snd (Fuzzapply data w)) =
    backends w ++
    replicate (count is_apply (events_of (Fuzzapply data) w)) closed_backend /\
  (count is_apply (events_of (Fuzzapply data) w) <= 1)%nat /\
  ab (snd (Fuzzapply data w)) = ab w.
Proof.
  rewrite Fuzzapply_count_apply, Fuzzapply_cases.
  destruct (Fuzzapply_entries data) as [ents|]; simpl.
  - repeat split; lia.
  - rewrite app_nil_r. repeat split; lia.
Qed.

(** X6: what [Fuzzapply] passes to the apply: the generated entries, in the
    order of generation, between 1 and 19 of them and each with data; the
    zero [ConfState]; a server on a backend that did not exist before the
    call. The apply is the last but one event of the call, between the
    creation and the closing of that backend. *)
Theorem Fuzzapply_apply_arguments data w srv ents cs
    (Hin : In (EvApply srv ents cs) (events_of (Fuzzapply data) w)) :
  ents = generated_entries (events_of (Fuzzapply data) w) /\
  (1 <= length ents <= 19)%nat /\
  Forall (fun ent => Data ent <> []) ents /\
  cs = ConfState_zero /\
  srv = fresh_server (length (backends w)) /\
  backends w !! consistIndex srv = None /\
  events_of (Fuzzapply data) w =
    Fuzzapply_decoding data ++ entries_execution (length (backends w)) ents.
Proof.
  rewrite Fuzzapply_cases_events in *.
  destruct (Fuzzapply_decoding_counts data) as (_ & _ & _ & Hap).
  apply in_app_or in Hin. destruct Hin as [Hin|Hin].
  { exfalso. pose proof (count_In is_apply _ _ Hin eq_refl). lia. }
  destruct (Fuzzapply_entries data) as [ents'|] eqn:He; [|destruct Hin].
  unfold entries_execution in Hin. simpl in Hin.
  destruct Hin as [Hin|[Hin|[Hin|[]]]]; try discriminate.
  injection Hin as <- <- <-.
  destruct (Fuzzapply_entries_Some data ents' He) as (H1 & H2 & H3).
  rewrite generated_entries_app. simpl. rewrite app_nil_r.
  repeat split; try assumption; try lia.
  simpl. apply lookup_ge_None. lia.
Qed.

(** X7: when [Fuzzapply] does not invoke the apply it returns 0 and changes
    nothing: no backend is created, and the state of etcd and [ab] are as
    before. *)
Theorem Fuzzapply_rejection data w
    (Hno : count is_apply (events_of (Fuzzapply data) w) = 0%nat) :
  Fuzzapply data w = (Returned 0, add_trace w (Fuzzapply_decoding data)).
Proof.
  rewrite Fuzzapply_count_apply in Hno. rewrite Fuzzapply_cases.
  destruct (Fuzzapply_entries data); [discriminate|reflexivity].
Qed.

(** X9: a panic of the entries apply. With a derived message of the
    allow-list [Fuzzapply] returns 0; otherwise it panics with the derived
    message as a string. In both cases the backend of the call is closed,
    its [Close] being the last event of the call, and the state of etcd is
    the one the apply left. *)
Theorem entries_panic_classified data w ents x' v
    (Hents : Fuzzapply_entries data = Some ents)
    (Happly : EtcdServer_apply (ext w)
                (backends w ++ [{| be_open := true; be_meta := true |}])
                (fresh_server (length (backends w))) ents ConfState_zero =
              (x', Some v)) :
  Fuzzapply data w =
  (if allowed allowlist1 (catchPanics_err v) then Returned 0
   else Panicked (PString (catchPanics_err v)),
   {| ext := x'; backends := backends w ++ [closed_backend]; ab := ab w;
      trace := trace w ++
               (Fuzzapply_decoding data ++
                entries_execution (length (backends w)) ents) |}).
Proof.
  rewrite Fuzzapply_cases, Hents. cbv zeta. rewrite Happly. cbn [fst snd].
  pose proof (recovered_outcome_allowed Variant1 v) as Hr.
  unfold handler, derived_message, allowlist in Hr. rewrite Hr. reflexivity.
Qed.

(** X11: [Fuzzapply] decodes one integer and attempts at most 19 generations of
    entries, whatever the buffer. *)
Theorem Fuzzapply_generation_bound data w :
  (count is_generate_entry (events_of (Fuzzapply data) w) <= 19)%nat /\
  (1 <= count is_decode (events_of (Fuzzapply data) w) <= 20)%nat.
Proof.
  rewrite Fuzzapply_cases_events, !count_app.
  destruct (Fuzzapply_decoding_counts data) as (Hgen & Hdec & _ & _).
  assert (H1 : (1 <= count is_decode (Fuzzapply_decoding data))%nat).
  { unfold Fuzzapply_decoding, count. simpl. lia. }
  assert (Hex : forall p, (p = is_generate_entry \/ p = is_decode) ->
            count p match Fuzzapply_entries data with
                    | None => []
                    | Some ents => entries_execution (length (backends w)) ents
                    end = 0%nat).
  { intros p [-> | ->]; destruct (Fuzzapply_entries data); reflexivity. }
  rewrite !Hex by auto. lia.
Qed.

End EntryApplyOutcomes.

(** ** More on the process *)

Section ProcessInvariants.
Context `{Collaborators}.

Lemma decoding_apply_target_ok (l : list Event) :
  List.filter is_decode l = l -> Forall apply_target_ok l.
Proof.
  intros Hf. apply List.Forall_forall. intros e Hin.
  assert (Hall : forallb is_decode l = true).
  { apply List.filter_length_forallb. rewrite Hf. reflexivity. }
  pose proof (proj1 (List.forallb_forall is_decode l) Hall e Hin) as He.
  destruct e; simpl in *; try discriminate; exact I.
Qed.

Lemma request_decoding_decode rr f1 :
  List.filter is_decode (request_decoding rr f1) = request_decoding rr f1.
Proof. unfold request_decoding. destruct (gated rr); reflexivity. Qed.

Lemma init_process_invariant x : process_invariant (snd (init (World0 x))).
Proof.
  split; [reflexivity|]. split; [exists 0%nat; reflexivity|].
  simpl. repeat constructor.
Qed.

Lemma run_call_process_invariant c w :
  process_invariant w -> process_invariant (snd (run_call c w)).
Proof.
  intros (Hab & [n Hbs] & Htr). destruct c as [data|data]; simpl.
  - rewrite Fuzzapply_cases.
    destruct (Fuzzapply_decoding_counts data) as (_ & _ & Hdec & _).
    apply decoding_apply_target_ok in Hdec.
    destruct (Fuzzapply_entries data) as [ents|];
      unfold process_invariant, add_trace; cbv zeta; cbn [snd ab backends trace].
    + split; [first [exact Hab|reflexivity]|]. split.
      * exists (S n). rewrite Hbs. symmetry. apply replicate_S_end.
      * apply Forall_app. split; [exact Htr|].
        apply Forall_app. split; [exact Hdec|].
        unfold entries_execution. repeat constructor.
        cbn [fresh_server consistIndex init_server].
        rewrite Hbs, length_replicate. discriminate.
    + split; [first [exact Hab|reflexivity]|]. split; [exists n; exact Hbs|].
      apply Forall_app. split; assumption.
  - rewrite FuzzapplierV3backendApply_cases.
    destruct (GenerateStruct_InternalRaftRequest (NewConsumer data)) as [[rr|e] f1].
    + pose proof (decoding_apply_target_ok _ (request_decoding_decode rr f1)) as Hdec.
      destruct (accepted rr f1); [rewrite Hab|];
        unfold process_invariant, add_trace; cbv zeta; cbn [snd ab backends trace].
      * split; [first [exact Hab|reflexivity]|]. split; [exists n; exact Hbs|].
        apply Forall_app. split; [exact Htr|].
        apply Forall_app. split; [exact Hdec|].
        repeat constructor.
      * split; [first [exact Hab|reflexivity]|]. split; [exists n; exact Hbs|].
        apply Forall_app. split; assumption.
    + unfold process_invariant, add_trace; cbn [snd ab backends trace].
      split; [first [exact Hab|reflexivity]|]. split; [exists n; exact Hbs|].
      apply Forall_app. split; [exact Htr|]. repeat constructor.
Qed.

Lemma run_calls_process_invariant cs w :
  process_invariant w -> process_invariant (run_calls cs w).
Proof.
  revert w. induction cs as [|c cs IH]; intros w Hw; simpl; [exact Hw|].
  pose proof (run_call_process_invariant c w Hw) as Hc.
  destruct (run_call c w) as [[a|v] w']; simpl in Hc; auto.
Qed.

(** X12: after [init] and any calls of the two targets, every backend of the
    process is closed, with its meta bucket: no call leaves a backend open
    for the next. *)
Theorem no_backend_left_open x cs :
  exists n,
    backends (run_calls cs (snd (init (World0 x)))) =
    replicate (S n) closed_backend.
Proof.
  destruct (run_calls_process_invariant cs _ (init_process_invariant x))
    as (_ & Hbs & _).
  exact Hbs.
Qed.

(** X13: over the life of the process, every request apply runs on the one
    server that [init] built, with [shouldApplyV3] true, and every entries
    apply runs with the zero [ConfState] on a server whose backend is not
    that of [init]. *)
Theorem applies_on_their_own_servers x cs :
  Forall apply_target_ok (trace (run_calls cs (snd (init (World0 x))))).
Proof.
  destruct (run_calls_process_invariant cs _ (init_process_invariant x))
    as (_ & _ & Htr).
  exact Htr.
Qed.

(** X14: in a call of either target all the decoding comes first: the events of
    the call are the decoding events of the buffer, then events that decode
    nothing. *)
Theorem decoding_precedes_execution data w :
  exists ex1 ex2,
    events_of (Fuzzapply data) w = Fuzzapply_decoding data ++ ex1 /\
    events_of (FuzzapplierV3backendApply data) w =
      FuzzapplierV3backendApply_decoding data ++ ex2 /\
    count is_decode ex1 = 0%nat /\ count is_decode ex2 = 0%nat.
Proof.
  pose proof (FuzzapplierV3backendApply_cases data w) as Hrun.
  unfold FuzzapplierV3backendApply_decoding.
  exists (match Fuzzapply_entries data with
          | None => []
          | Some ents => entries_execution (length (backends w)) ents
          end).
  destruct (GenerateStruct_InternalRaftRequest (NewConsumer data)) as [[rr|e] f1];
    simpl fst; simpl snd; cbv iota.
  - destruct (accepted rr f1); [destruct (ab w) as [srv|]|].
    + exists [EvApplierApply srv rr true].
      split; [apply Fuzzapply_cases_events|].
      split; [eapply events_of_add_trace; exact Hrun|].
      split; [destruct (Fuzzapply_entries data)|]; reflexivity.
    + exists []. split; [apply Fuzzapply_cases_events|].
      split; [eapply events_of_add_trace; rewrite Hrun, app_nil_r; reflexivity|].
      split; [destruct (Fuzzapply_entries data)|]; reflexivity.
    + exists []. split; [apply Fuzzapply_cases_events|].
      split; [eapply events_of_add_trace; rewrite Hrun, app_nil_r; reflexivity|].
      split; [destruct (Fuzzapply_entries data)|]; reflexivity.
  - exists []. split; [apply Fuzzapply_cases_events|].
    split; [eapply events_of_add_trace; rewrite Hrun; reflexivity|].
    split; [destruct (Fuzzapply_entries data)|]; reflexivity.
Qed.

End ProcessInvariants.

(** ** The targets on explicit buffers *)

#[local] Existing Instances Ref.pb Ref.env.

Lemma suppressed_panic_returns_zero_witness :
  ab Ref.started = Some init_server /\
  GenerateStruct_InternalRaftRequest (NewConsumer [x04; x01]) =
    (Ok Ref.downgrade_request, [x01]) /\
  accepted Ref.downgrade_request [x01] = true /\
  applierV3_Apply (ext Ref.started) (backends Ref.started) init_server
    Ref.downgrade_request true = (O, Some (PString Ref.downgrade_message)) /\
  allowed allowlist2 (catchPanics2_err (PString Ref.downgrade_message)) = true /\
  fst (FuzzapplierV3backendApply [x04; x01] Ref.started) = Returned 0.
Proof.
  repeat (split; [reflexivity|]).
  rewrite (suppressed_panic_returns_zero [x04; x01] Ref.started init_server
             Ref.downgrade_request [x01] O (PString Ref.downgrade_message)
             eq_refl eq_refl eq_refl eq_refl eq_refl).
  reflexivity.
Defined.

(** C1 as stated fails: the apply panics with the downgrade message, the
    panic is suppressed, and the target returns 0, not 1. *)
Lemma suppressed_panic_returns_one_counterexample :
  events_of (FuzzapplierV3backendApply [x04; x01]) Ref.started =
    [EvGenerateRequest (Ok Ref.downgrade_request) [x01]; EvGetBool (Ok true) [];
     EvApplierApply init_server Ref.downgrade_request true] /\
  applierV3_Apply (ext Ref.started) (backends Ref.started) init_server
    Ref.downgrade_request true = (O, Some (PString Ref.downgrade_message)) /\
  fst (FuzzapplierV3backendApply [x04; x01] Ref.started) = Returned 0 /\
  fst (FuzzapplierV3backendApply [x04; x01] Ref.started) <> Returned 1.
Proof. repeat split. discriminate. Qed.

Lemma apply_iff_auxiliary_boolean_witness :
  ab Ref.started = Some init_server /\
  GenerateStruct_InternalRaftRequest (NewConsumer [x01; x01]) =
    (Ok Ref.version_request, [x01]) /\
  gated Ref.version_request = true /\
  GetBool [x01] = (Ok true, []) /\
  applierV3_Apply (ext Ref.started) (backends Ref.started) init_server
    Ref.version_request true = (1%nat, None) /\
  FuzzapplierV3backendApply [x01; x01] Ref.started =
    (Returned 1,
     {| ext := 1%nat; backends := backends Ref.started; ab := ab Ref.started;
        trace := trace Ref.started ++
                 [EvGenerateRequest (Ok Ref.version_request) [x01];
                  EvGetBool (Ok true) [];
                  EvApplierApply init_server Ref.version_request true] |}) /\
  GenerateStruct_InternalRaftRequest (NewConsumer [x01; x00]) =
    (Ok Ref.version_request, [x00]) /\
  events_of (FuzzapplierV3backendApply [x01; x00]) Ref.started =
    [EvGenerateRequest (Ok Ref.version_request) [x00]; EvGetBool (Ok false) []].
Proof.
  do 5 (split; [reflexivity|]).
  split.
  - destruct (apply_iff_auxiliary_boolean [x01; x01] Ref.started init_server
                Ref.version_request [x01] eq_refl eq_refl) as (_ & Hg & _).
    destruct (Hg eq_refl) as (_ & _ & _ & Hrun & _).
    exact (Hrun [] eq_refl).
  - split; [reflexivity|].
    rewrite (proj1 (apply_iff_auxiliary_boolean [x01; x00] Ref.started init_server
                      Ref.version_request [x00] eq_refl eq_refl)).
    reflexivity.
Defined.

Lemma entries_generated_bound_witness :
  GetInt (NewConsumer [x02; x00; x00; x00; x01; x41; x00; x00; x00; x01; x41]) =
    (Ok 2, [x00; x00; x00; x01; x41; x00; x00; x00; x01; x41]) /\
  (count is_generate_entry
     (events_of (Fuzzapply [x02; x00; x00; x00; x01; x41; x00; x00; x00; x01; x41])
        Ref.started) <= 2)%nat.
Proof.
  split; [reflexivity|].
  exact (proj1 (entries_generated_bound
                  [x02; x00; x00; x00; x01; x41; x00; x00; x00; x01; x41]
                  Ref.started 2 [x00; x00; x00; x01; x41; x00; x00; x00; x01; x41]
                  eq_refl)).
Defined.

(** C5 as stated fails. On the buffer [[xfb]] the integer decodes to -5 and
    no entry is generated, where -5 mod 20 is 15 and Go's -5 % 20 is -5. On
    the buffer [[x05]] the integer decodes to 5, the first generation fails,
    and the call returns 0 after one attempt and no entry. *)
Lemma entries_generated_counterexample :
  (GetInt (NewConsumer [xfb]) = (Ok (-5), []) /\
   events_of (Fuzzapply [xfb]) Ref.started = [EvGetInt (Ok (-5)) []] /\
   count is_generate_entry (events_of (Fuzzapply [xfb]) Ref.started) = O /\
   Z.of_nat (count is_generate_entry (events_of (Fuzzapply [xfb]) Ref.started))
     <> (-5) mod 20 /\
   Z.of_nat (count is_generate_entry (events_of (Fuzzapply [xfb]) Ref.started))
     <> Z.rem (-5) 20) /\
  (GetInt (NewConsumer [x05]) = (Ok 5, []) /\
   events_of (Fuzzapply [x05]) Ref.started =
     [EvGetInt (Ok 5) []; EvGenerateEntry (Err "not enough bytes") []] /\
   Z.of_nat (count is_generate_entry (events_of (Fuzzapply [x05]) Ref.started))
     <> 5 mod 20).
Proof. repeat split; discriminate. Qed.

Lemma rejected_entry_stops_witness :
  In (EvGenerateEntry (Ok {| Term := 0; Index := 0; EntryType := 0; Data := [] |}) [])
     (events_of (Fuzzapply [x02; x00; x00; x00; x01; x41; x00; x00; x00; x00])
        Ref.started) /\
  is_rejected_entry
    (EvGenerateEntry (Ok {| Term := 0; Index := 0; EntryType := 0; Data := [] |}) [])
    = true /\
  fst (Fuzzapply [x02; x00; x00; x00; x01; x41; x00; x00; x00; x00] Ref.started)
    = Returned 0.
Proof.
  assert (Hin : In (EvGenerateEntry
                      (Ok {| Term := 0; Index := 0; EntryType := 0; Data := [] |}) [])
                   (events_of (Fuzzapply [x02; x00; x00; x00; x01; x41; x00; x00; x00; x00])
                      Ref.started)).
  { vm_compute. right. right. left. reflexivity. }
  split; [exact Hin|]. split; [reflexivity|].
  exact (proj1 (rejected_entry_stops _ Ref.started _ Hin eq_refl)).
Defined.

Lemma one_entry_applied_once_witness :
  GetInt (NewConsumer [x01; x00; x00; x00; x01; x41]) =
    (Ok 1, [x00; x00; x00; x01; x41]) /\
  Z.rem 1 20 = 1 /\
  GenerateStruct_Entry [x00; x00; x00; x01; x41] = (Ok Ref.entry_A, []) /\
  Data Ref.entry_A <> [] /\
  fst (Fuzzapply [x01; x00; x00; x00; x01; x41] Ref.started) = Returned 1 /\
  count is_apply (events_of (Fuzzapply [x01; x00; x00; x00; x01; x41]) Ref.started)
    = 1%nat.
Proof.
  split; [reflexivity|]. split; [reflexivity|]. split; [reflexivity|].
  split; [discriminate|].
  destruct (one_entry_applied_once [x01; x00; x00; x00; x01; x41] Ref.started
              1 [x00; x00; x00; x01; x41] Ref.entry_A [] 1%nat
              eq_refl eq_refl eq_refl ltac:(discriminate) eq_refl)
    as (Hrun & _ & Hcount).
  split; [rewrite Hrun; reflexivity | exact Hcount].
Defined.

(** ** More runs on explicit buffers *)

Lemma FuzzapplierV3backendApply_rejection_witness :
  ab Ref.started = Some init_server /\
  count is_apply (events_of (FuzzapplierV3backendApply [x01; x00]) Ref.started) = 0%nat /\
  FuzzapplierV3backendApply [x01; x00] Ref.started =
  (Returned 0,
   add_trace Ref.started
     [EvGenerateRequest (Ok Ref.version_request) [x00]; EvGetBool (Ok false) []]).
Proof.
  split; [reflexivity|]. split; [reflexivity|].
  exact (FuzzapplierV3backendApply_rejection [x01; x00] Ref.started init_server
           eq_refl eq_refl).
Defined.

Lemma request_panic_propagates_witness :
  @ab Ref.pb Faulty.env Faulty.started = Some init_server /\
  @GenerateStruct_InternalRaftRequest Ref.pb Faulty.env
    (@NewConsumer Ref.pb Faulty.env [x01; x01]) = (Ok Ref.version_request, [x01]) /\
  @accepted Ref.pb Faulty.env Ref.version_request [x01] = true /\
  @applierV3_Apply Ref.pb Faulty.env O (backends Faulty.started) init_server
    Ref.version_request true = (O, Some (PRuntimeError "index out of range")) /\
  allowed allowlist2 (catchPanics2_err (PRuntimeError "index out of range")) = false /\
  fst (@FuzzapplierV3backendApply Ref.pb Faulty.env [x01; x01] Faulty.started) =
  Panicked (PString "index out of range").
Proof.
  repeat (split; [reflexivity|]).
  rewrite (@request_panic_propagates Ref.pb Faulty.env [x01; x01] Faulty.started
             init_server Ref.version_request [x01] O
             (PRuntimeError "index out of range")
             eq_refl eq_refl eq_refl eq_refl eq_refl).
  reflexivity.
Defined.

Lemma Fuzzapply_apply_arguments_witness :
  In (EvApply (fresh_server 1) [Ref.entry_A] tt)
     (events_of (Fuzzapply [x01; x00; x00; x00; x01; x41]) Ref.started) /\
  [Ref.entry_A] =
    generated_entries (events_of (Fuzzapply [x01; x00; x00; x00; x01; x41]) Ref.started).
Proof.
  assert (Hin : In (EvApply (fresh_server 1) [Ref.entry_A] tt)
                   (events_of (Fuzzapply [x01; x00; x00; x00; x01; x41]) Ref.started)).
  { vm_compute. right. right. right. left. reflexivity. }
  split; [exact Hin|].
  exact (proj1 (Fuzzapply_apply_arguments _ Ref.started _ _ _ Hin)).
Defined.

Lemma Fuzzapply_rejection_witness :
  count is_apply (events_of (Fuzzapply []) Ref.started) = 0%nat /\
  Fuzzapply [] Ref.started =
  (Returned 0, add_trace Ref.started [EvGetInt (Err "not enough bytes") []]).
Proof.
  split; [reflexivity|].
  exact (Fuzzapply_rejection [] Ref.started eq_refl).
Defined.

Lemma entries_panic_classified_witness :
  @Fuzzapply_entries Ref.pb Faulty.env [x01; x01; x00; x00; x01; x41] =
    Some [Faulty.entry_1] /\
  @EtcdServer_apply Ref.pb Faulty.env O
    (backends Faulty.started ++ [{| be_open := true; be_meta := true |}])
    (fresh_server 1) [Faulty.entry_1] tt =
    (O, Some (PString "unmarshal should never fail")) /\
  fst (@Fuzzapply Ref.pb Faulty.env [x01; x01; x00; x00; x01; x41] Faulty.started) =
    Returned 0 /\
  backends (snd (@Fuzzapply Ref.pb Faulty.env [x01; x01; x00; x00; x01; x41]
                   Faulty.started)) =
    [closed_backend; closed_backend].
Proof.
  split; [reflexivity|]. split; [reflexivity|].
  rewrite (@entries_panic_classified Ref.pb Faulty.env
             [x01; x01; x00; x00; x01; x41] Faulty.started
             [Faulty.entry_1] O (PString "unmarshal should never fail")
             eq_refl eq_refl).
  split; reflexivity.
Defined.
